(** * Vyappar: the local-storage data store and its derived analytics

    A shallow embedding of [src/lib/store.ts] (inventory and invoice
    repositories, analytics helpers, insight rules) and of the submit
    handler of [src/pages/Invoices.tsx], which builds the invoice that the
    repository stores.

    Modelling conventions.
    - A TypeScript [number] is an exact integer ([Z]): quantities are the
      results of [parseInt], money amounts are taken in whole units.  [NaN],
      infinities and rounding of doubles are outside the model.
    - A timestamp ([createdAt], [new Date()]) is its time value in
      milliseconds; [toISOString] followed by [new Date(s)] gives back the
      same time value.
    - [localStorage] holds the two collections; [JSON.stringify] followed by
      [JSON.parse] is the identity on them, and a missing key reads as the
      empty collection.  Every [setItem] is also recorded in a log, so that
      the order of the writes can be stated.
    - [crypto.randomUUID()] and [new Date()] are inputs of the operation
      that calls them.
    - The object used as a dictionary in [getTopSellingProduct] is the list
      of its own properties in creation order, read with the rules of
      JavaScript objects: a key that names a member of [Object.prototype]
      is found although the object does not own it, and [Object.values]
      lists the array-index keys first, in ascending numeric order, and the
      other keys after them in creation order. *)

From Stdlib Require Import ZArith List String Ascii Lia Bool DecimalString.
From Stdlib Require Import Permutation Sorted.
Import ListNotations.
Local Open Scope Z_scope.

(** ** Data model *)

Module Item.
Record t : Type := mk {
  id : string;
  name : string;
  quantity : Z;
  price : Z;
  createdAt : Z
}.
End Item.

Definition InventoryItem : Type := Item.t.

(** [Omit<InventoryItem, 'id' | 'createdAt'>] *)
Module NewItem.
Record t : Type := mk {
  name : string;
  quantity : Z;
  price : Z
}.
End NewItem.

(** [Partial<InventoryItem>]: a field is [None] when the key is absent. *)
Module Patch.
Record t : Type := mk {
  id : option string;
  name : option string;
  quantity : option Z;
  price : option Z;
  createdAt : option Z
}.
End Patch.

Module Line.
Record t : Type := mk {
  itemId : string;
  itemName : string;
  quantity : Z;
  price : Z;
  total : Z
}.
End Line.

Module Invoice.
Record t : Type := mk {
  id : string;
  customerName : string;
  items : list Line.t;
  total : Z;
  createdAt : Z
}.
End Invoice.

Definition Invoice : Type := Invoice.t.

(** [Omit<Invoice, 'id' | 'createdAt'>] *)
Module NewInvoice.
Record t : Type := mk {
  customerName : string;
  items : list Line.t;
  total : Z
}.
End NewInvoice.

(** ** The store and the monad of store operations *)

Inductive Write : Type :=
| SetInventory (items : list InventoryItem)
| SetInvoices (invs : list Invoice).

Record Store : Type := mkStore {
  inventory : list InventoryItem;
  invoices : list Invoice;
  writes : list Write
}.

Definition emptyStore : Store := mkStore [] [] [].

Inductive Exn : Type := TypeError.

Inductive Result (A : Type) : Type :=
| Ok (a : A)
| Throw (e : Exn).
Arguments Ok {A} a.
Arguments Throw {A} e.

Definition M (A : Type) : Type := Store -> Result A * Store.

Definition ret {A : Type} (a : A) : M A := fun s => (Ok a, s).

Definition bind {A B : Type} (m : M A) (f : A -> M B) : M B :=
  fun s =>
    match m s with
    | (Ok a, s') => f a s'
    | (Throw e, s') => (Throw e, s')
    end.

Definition throw {A : Type} (e : Exn) : M A := fun s => (Throw e, s).

Declare Scope store_scope.
Delimit Scope store_scope with store.
Notation "x <- m ;; k" := (bind m (fun x => k))
  (at level 100, m at next level, right associativity) : store_scope.
Notation "m ;;; k" := (bind m (fun _ => k))
  (at level 100, right associativity) : store_scope.
Local Open Scope store_scope.

(** The store an operation leaves behind. *)
Definition exec {A : Type} (m : M A) (s : Store) : Store := snd (m s).

(** [Array.prototype.forEach] with a callback that acts on the store. *)
Fixpoint forEach {A : Type} (l : list A) (f : A -> M unit) : M unit :=
  match l with
  | [] => ret tt
  | x :: rest => f x ;;; forEach rest f
  end.

(** ** Array helpers *)

(** [Array.prototype.findIndex]; [None] stands for [-1]. *)
Fixpoint findIndex {A : Type} (p : A -> bool) (l : list A) : option nat :=
  match l with
  | [] => None
  | x :: rest =>
      if p x then Some O
      else match findIndex p rest with
           | Some i => Some (S i)
           | None => None
           end
  end.

(** [items[index] = x] for an index inside the array. *)
Fixpoint assignAt {A : Type} (index : nat) (x : A) (l : list A) : list A :=
  match l, index with
  | [], _ => []
  | _ :: rest, O => x :: rest
  | y :: rest, S i => y :: assignAt i x rest
  end.

(** The array after the object returned by [find p] has been mutated in
    place by [f]: the first element that satisfies [p] is the one changed. *)
Fixpoint mutateFound {A : Type} (p : A -> bool) (f : A -> A) (l : list A)
  : list A :=
  match l with
  | [] => []
  | x :: rest => if p x then f x :: rest else x :: mutateFound p f rest
  end.

(** ** Inventory functions *)

Definition getInventory : M (list InventoryItem) :=
  fun s => (Ok (inventory s), s).

Definition saveInventory (items : list InventoryItem) : M unit :=
  fun s => (Ok tt, mkStore items (invoices s) (writes s ++ [SetInventory items])).

Definition addInventoryItem (uuid : string) (now : Z) (item : NewItem.t)
  : M InventoryItem :=
  items <- getInventory ;;
  let newItem :=
    Item.mk uuid (NewItem.name item) (NewItem.quantity item)
            (NewItem.price item) now in
  saveInventory (items ++ [newItem]) ;;;
  ret newItem.

Definition orElse {A : Type} (o : option A) (d : A) : A :=
  match o with
  | Some a => a
  | None => d
  end.

(** [{ ...item, ...updates }] *)
Definition merge (item : InventoryItem) (updates : Patch.t) : InventoryItem :=
  Item.mk (orElse (Patch.id updates) (Item.id item))
          (orElse (Patch.name updates) (Item.name item))
          (orElse (Patch.quantity updates) (Item.quantity item))
          (orElse (Patch.price updates) (Item.price item))
          (orElse (Patch.createdAt updates) (Item.createdAt item)).

Definition updateInventoryItem (id : string) (updates : Patch.t) : M unit :=
  items <- getInventory ;;
  match findIndex (fun item => String.eqb (Item.id item) id) items with
  | Some index =>
      saveInventory (assignAt index (merge (nth index items (Item.mk "" "" 0 0 0)) updates) items)
  | None => ret tt
  end.

Definition deleteInventoryItem (id : string) : M unit :=
  items <- getInventory ;;
  saveInventory (filter (fun item => negb (String.eqb (Item.id item) id)) items).

Definition setQuantity (q : Z) (item : InventoryItem) : InventoryItem :=
  Item.mk (Item.id item) (Item.name item) q (Item.price item)
          (Item.createdAt item).

Definition reduceInventoryQuantity (itemId : string) (quantity : Z) : M unit :=
  items <- getInventory ;;
  match find (fun i => String.eqb (Item.id i) itemId) items with
  | Some _ =>
      saveInventory
        (mutateFound (fun i => String.eqb (Item.id i) itemId)
           (fun item => setQuantity (Z.max 0 (Item.quantity item - quantity)) item)
           items)
  | None => ret tt
  end.

(** ** Invoice functions *)

Definition getInvoices : M (list Invoice) :=
  fun s => (Ok (invoices s), s).

Definition saveInvoices (invs : list Invoice) : M unit :=
  fun s => (Ok tt, mkStore (inventory s) invs (writes s ++ [SetInvoices invs])).

Definition createInvoice (uuid : string) (now : Z) (invoice : NewInvoice.t)
  : M Invoice :=
  invs <- getInvoices ;;
  let newInvoice :=
    Invoice.mk uuid (NewInvoice.customerName invoice) (NewInvoice.items invoice)
               (NewInvoice.total invoice) now in
  saveInvoices (invs ++ [newInvoice]) ;;;
  forEach (NewInvoice.items invoice)
          (fun item => reduceInventoryQuantity (Line.itemId item) (Line.quantity item)) ;;;
  ret newInvoice.

Definition deleteInvoice (id : string) : M unit :=
  invs <- getInvoices ;;
  saveInvoices (filter (fun inv => negb (String.eqb (Invoice.id inv) id)) invs).

(** ** Analytics helpers *)

(** [.reduce((sum, inv) => sum + inv.total, 0)] *)
Definition sumTotals (invs : list Invoice) : Z :=
  fold_left (fun sum inv => sum + Invoice.total inv) invs 0.

Definition getLastWeekSales (now : Z) : M Z :=
  let oneWeekAgo := now - 7 * 24 * 60 * 60 * 1000 in
  let twoWeeksAgo := now - 14 * 24 * 60 * 60 * 1000 in
  invs <- getInvoices ;;
  ret (sumTotals
         (filter (fun inv =>
                    let date := Invoice.createdAt inv in
                    (twoWeeksAgo <=? date) && (date <? oneWeekAgo))
                 invs)).

Definition getThisWeekSales (now : Z) : M Z :=
  let oneWeekAgo := now - 7 * 24 * 60 * 60 * 1000 in
  invs <- getInvoices ;;
  ret (sumTotals (filter (fun inv => oneWeekAgo <=? Invoice.createdAt inv) invs)).

Module Product.
Record t : Type := mk {
  name : string;
  quantity : Z
}.
End Product.

(** [productSales[key]] *)
Fixpoint lookup (key : string) (productSales : list (string * Product.t))
  : option Product.t :=
  match productSales with
  | [] => None
  | (k, p) :: rest => if String.eqb k key then Some p else lookup key rest
  end.

(** [productSales[key].quantity += q] for a key that may be present. *)
Fixpoint addQuantity (key : string) (q : Z)
    (productSales : list (string * Product.t)) : list (string * Product.t) :=
  match productSales with
  | [] => []
  | (k, p) :: rest =>
      if String.eqb k key
      then (k, Product.mk (Product.name p) (Product.quantity p + q)) :: rest
      else (k, p) :: addQuantity key q rest
  end.

(** The properties that every object inherits from [Object.prototype]:
    reading one of them from an object that does not own it gives a
    function, or the prototype itself, which is truthy. *)
Definition prototypeMembers : list string :=
  ["constructor"; "hasOwnProperty"; "isPrototypeOf"; "propertyIsEnumerable";
   "toLocaleString"; "toString"; "valueOf"; "__proto__";
   "__defineGetter__"; "__defineSetter__"; "__lookupGetter__"; "__lookupSetter__"]%string.

Definition inherited (key : string) : bool :=
  existsb (String.eqb key) prototypeMembers.

(** The body of the inner [forEach] of [getTopSellingProduct].  The test
    [!productSales[id]] fails for an own entry and for an inherited member;
    for an inherited member the [+=] lands on that member and the object
    gains no entry. *)
Definition recordSale (productSales : list (string * Product.t)) (item : Line.t)
  : list (string * Product.t) :=
  let productSales :=
    match lookup (Line.itemId item) productSales with
    | None =>
        if inherited (Line.itemId item) then productSales
        else productSales ++ [(Line.itemId item, Product.mk (Line.itemName item) 0)]
    | Some _ => productSales
    end in
  addQuantity (Line.itemId item) (Line.quantity item) productSales.

Definition collectSales (invs : list Invoice) : list (string * Product.t) :=
  fold_left (fun productSales inv => fold_left recordSale (Invoice.items inv) productSales)
            invs [].

(** [products.reduce((top, product) => product.quantity > top.quantity ? product : top)]
    on a non-empty array whose first element is [first]. *)
Definition reduceTop (first : Product.t) (rest : list Product.t) : Product.t :=
  fold_left (fun top product =>
               if Product.quantity top <? Product.quantity product then product else top)
            rest first.

(** The value of a decimal digit. *)
Definition digitOf (c : ascii) : option N :=
  let n := N_of_ascii c in
  if (48 <=? n)%N && (n <=? 57)%N then Some (n - 48)%N else None.

Fixpoint parseDigits (s : string) (acc : N) : option N :=
  match s with
  | EmptyString => Some acc
  | String c rest =>
      match digitOf c with
      | Some d => parseDigits rest (10 * acc + d)%N
      | None => None
      end
  end.

(** The array index that a property key denotes, if any: the canonical
    decimal string of an integer from 0 to 2^32 - 2. *)
Definition arrayIndex (key : string) : option N :=
  match key with
  | EmptyString => None
  | String c rest =>
      if Ascii.eqb c "0" then
        match rest with
        | EmptyString => Some 0%N
        | String _ _ => None
        end
      else
        match parseDigits key 0 with
        | Some n => if (n <=? 4294967294)%N then Some n else None
        | None => None
        end
  end.

Fixpoint insertIndexed (n : N) (p : Product.t) (sorted : list (N * Product.t))
  : list (N * Product.t) :=
  match sorted with
  | [] => [(n, p)]
  | (m, q) :: rest =>
      if (n <? m)%N then (n, p) :: (m, q) :: rest
      else (m, q) :: insertIndexed n p rest
  end.

(** The entries under array-index keys, in ascending order of the index. *)
Fixpoint indexedEntries (table : list (string * Product.t)) : list (N * Product.t) :=
  match table with
  | [] => []
  | (k, p) :: rest =>
      match arrayIndex k with
      | Some n => insertIndexed n p (indexedEntries rest)
      | None => indexedEntries rest
      end
  end.

(** The entries under the other keys, in creation order. *)
Fixpoint namedEntries (table : list (string * Product.t)) : list Product.t :=
  match table with
  | [] => []
  | (k, p) :: rest =>
      match arrayIndex k with
      | Some _ => namedEntries rest
      | None => p :: namedEntries rest
      end
  end.

(** [Object.values(productSales)] *)
Definition objectValues (productSales : list (string * Product.t)) : list Product.t :=
  map snd (indexedEntries productSales) ++ namedEntries productSales.

Definition getTopSellingProduct : M (option Product.t) :=
  invs <- getInvoices ;;
  let products := objectValues (collectSales invs) in
  match products with
  | [] => ret None
  | first :: rest => ret (Some (reduceTop first rest))
  end.

Definition getLowStockItems : M (list InventoryItem) :=
  items <- getInventory ;;
  ret (filter (fun item => Item.quantity item <? 5) items).

(** ** Insight rules *)

Definition showZ (z : Z) : string := NilZero.string_of_int (Z.to_int z).

Definition quote : string := String (ascii_of_nat 34) EmptyString.

Section Insights.

(** [Date.prototype.toDateString] (the calendar date of a time value in the
    local time zone) and [Number.prototype.toLocaleString] depend on the
    host's time zone and locale. *)
Variable toDateString : Z -> string.
Variable toLocaleString : Z -> string.

(** [((thisWeek - lastWeek) / lastWeek * 100).toFixed(0)] as a function of
    the two sales figures: the quotient and the product are taken in the
    host's double arithmetic and are not integers in general. *)
Variable percentIncrease : Z -> Z -> string.

Definition getTodaySales (now : Z) : M Z :=
  let today := toDateString now in
  invs <- getInvoices ;;
  ret (sumTotals
         (filter (fun inv => String.eqb (toDateString (Invoice.createdAt inv)) today)
                 invs)).

Definition salesUp (increase : string) : string :=
  String.concat "" ["ðŸ“ˆ Sales are up "; increase; "% compared to last week. Great momentum!"]%string.

Definition salesDown : string := "ðŸ“‰ Sales have decreased compared to last week. Consider running a promotion."%string.

Definition salesSteady : string := "ðŸ“Š Your business is generating steady sales. Keep it up!"%string.

Definition lowStockAlert (lowStockItems : list InventoryItem) : string :=
  let itemNames := String.concat ", " (map Item.name (firstn 2 lowStockItems)) in
  String.concat ""
    ["âš ï¸ Low stock alert: "; itemNames;
     (if (2 <? List.length lowStockItems)%nat
      then String.concat ""
             [" and "; showZ (Z.of_nat (List.length lowStockItems) - 2); " more"]
      else "");
     " may run out soon."]%string.

Definition bestSeller (topProduct : Product.t) : string :=
  String.concat ""
    ["ðŸ† "; quote; Product.name topProduct; quote; " is your best seller with ";
     showZ (Product.quantity topProduct); " units sold."]%string.

Definition madeToday (todaySales : Z) : string :=
  String.concat "" ["ðŸ’° You've made â‚¹"; toLocaleString todaySales; " in sales today."]%string.

Definition welcome : string := "ðŸš€ Welcome! Start by adding inventory items and creating invoices to see insights."%string.

(** [insights.push(s)] *)
Definition push (insights : list string) (s : string) : list string :=
  insights ++ [s].

(** The three [new Date()] readings are those of [getThisWeekSales],
    [getLastWeekSales] and [getTodaySales], in the order of the calls. *)
Definition generateInsights (nowThisWeek nowLastWeek nowToday : Z)
  : M (list string) :=
  let insights : list string := [] in
  thisWeekSales <- getThisWeekSales nowThisWeek ;;
  lastWeekSales <- getLastWeekSales nowLastWeek ;;
  lowStockItems <- getLowStockItems ;;
  topProduct <- getTopSellingProduct ;;
  todaySales <- getTodaySales nowToday ;;
  let insights :=
    if (lastWeekSales <? thisWeekSales) && (0 <? lastWeekSales) then
      let increase := percentIncrease thisWeekSales lastWeekSales in
      push insights (salesUp increase)
    else if (thisWeekSales <? lastWeekSales) && (0 <? lastWeekSales) then
      push insights salesDown
    else if 0 <? thisWeekSales then
      push insights salesSteady
    else insights in
  let insights :=
    if (0 <? List.length lowStockItems)%nat
    then push insights (lowStockAlert lowStockItems)
    else insights in
  let insights :=
    match topProduct with
    | Some top =>
        if 3 <? Product.quantity top then push insights (bestSeller top)
        else insights
    | None => insights
    end in
  let insights :=
    if 0 <? todaySales then push insights (madeToday todaySales) else insights in
  let insights :=
    if (List.length insights =? 0)%nat then push insights welcome else insights in
  ret insights.

End Insights.

(** ** The invoice form ([handleSubmit] of the Invoices page) *)

Module FormItem.
Record t : Type := mk {
  itemId : string;
  quantity : Z
}.
End FormItem.

Inductive Toast : Type :=
| ToastError (title description : string)
| ToastInfo (title description : string).

Definition findById (inventory : list InventoryItem) (itemId : string)
  : option InventoryItem :=
  find (fun i => String.eqb (Item.id i) itemId) inventory.

(** [fi.itemId && fi.quantity > 0] *)
Definition isValidItem (fi : FormItem.t) : bool :=
  negb (String.eqb (FormItem.itemId fi) "") && (0 <? FormItem.quantity fi).

(** The stock loop: the first form item that asks for more than the page's
    copy of the inventory holds, with the inventory item it refers to. *)
Fixpoint checkStock (inventory : list InventoryItem) (validItems : list FormItem.t)
  : option InventoryItem :=
  match validItems with
  | [] => None
  | formItem :: rest =>
      match findById inventory (FormItem.itemId formItem) with
      | Some inventoryItem =>
          if Item.quantity inventoryItem <? FormItem.quantity formItem
          then Some inventoryItem
          else checkStock inventory rest
      | None => checkStock inventory rest
      end
  end.

(** The callback of [validItems.map]: reading a field of the [undefined]
    that [find] returns for an unknown id throws a [TypeError]. *)
Definition toLine (inventory : list InventoryItem) (formItem : FormItem.t)
  : M Line.t :=
  match findById inventory (FormItem.itemId formItem) with
  | Some inventoryItem =>
      ret (Line.mk (FormItem.itemId formItem)
                   (Item.name inventoryItem)
                   (FormItem.quantity formItem)
                   (Item.price inventoryItem)
                   (Item.price inventoryItem * FormItem.quantity formItem))
  | None => throw TypeError
  end.

Fixpoint mapM {A B : Type} (f : A -> M B) (l : list A) : M (list B) :=
  match l with
  | [] => ret []
  | x :: rest =>
      y <- f x ;;
      ys <- mapM f rest ;;
      ret (y :: ys)
  end.

(** [invoiceItems.reduce((sum, item) => sum + item.total, 0)] *)
Definition sumLines (invoiceItems : list Line.t) : Z :=
  fold_left (fun sum item => sum + Line.total item) invoiceItems 0.

Section InvoicesPage.

(** [String.prototype.trim] *)
Variable trim : string -> string.

(** [inventory] is the page's copy of the collection, as [loadData] read it;
    the result is the toast shown. *)
Definition handleSubmit (inventory : list InventoryItem) (customerName : string)
    (formItems : list FormItem.t) (uuid : string) (now : Z) : M Toast :=
  if String.eqb (trim customerName) "" then
    ret (ToastError "Error" "Please enter customer name")
  else
    let validItems := filter isValidItem formItems in
    if (List.length validItems =? 0)%nat then
      ret (ToastError "Error" "Please add at least one item")
    else
      match checkStock inventory validItems with
      | Some inventoryItem =>
          ret (ToastError "Insufficient Stock"
                 (String.concat ""
                    ["Only "; showZ (Item.quantity inventoryItem); " units of ";
                     quote; Item.name inventoryItem; quote; " available"]%string))
      | None =>
          invoiceItems <- mapM (toLine inventory) validItems ;;
          createInvoice uuid now
            (NewInvoice.mk (trim customerName) invoiceItems (sumLines invoiceItems)) ;;;
          ret (ToastInfo "Invoice Created"
                 "Invoice generated and inventory updated automatically")
      end.

End InvoicesPage.

(** ** The inventory form ([handleSubmit] of the Inventory page) *)

Module InventoryPage.
Section Form.

(** [String.prototype.trim], and [parseInt] and [parseFloat] on the value
    of a numeric input field. *)
Variable trim : string -> string.
Variable parseInt : string -> Z.
Variable parseFloat : string -> Z.

Definition handleSubmit (name quantity price : string) (uuid : string) (now : Z)
  : M Toast :=
  if String.eqb (trim name) "" then
    ret (ToastError "Error" "Please enter item name")
  else if String.eqb quantity "" || (parseInt quantity <? 0) then
    ret (ToastError "Error" "Please enter valid quantity")
  else if String.eqb price "" || (parseFloat price <=? 0) then
    ret (ToastError "Error" "Please enter valid price")
  else
    addInventoryItem uuid now
      (NewItem.mk (trim name) (parseInt quantity) (parseFloat price)) ;;;
    ret (ToastInfo "Item Added"
           (String.append name " has been added to inventory")).

End Form.
End InventoryPage.

(** ** Repository operations as commands *)

Inductive Op : Type :=
| OpAdd (uuid : string) (now : Z) (item : NewItem.t)
| OpUpdate (id : string) (updates : Patch.t)
| OpDelete (id : string)
| OpReduce (id : string) (amount : Z)
| OpCreateInvoice (uuid : string) (now : Z) (invoice : NewInvoice.t)
| OpDeleteInvoice (id : string).

Definition run (op : Op) (s : Store) : Store :=
  match op with
  | OpAdd uuid now item => exec (addInventoryItem uuid now item) s
  | OpUpdate id updates => exec (updateInventoryItem id updates) s
  | OpDelete id => exec (deleteInventoryItem id) s
  | OpReduce id amount => exec (reduceInventoryQuantity id amount) s
  | OpCreateInvoice uuid now invoice => exec (createInvoice uuid now invoice) s
  | OpDeleteInvoice id => exec (deleteInvoice id) s
  end.

(** Whether an operation raised. *)
Definition raises {A : Type} (m : M A) (s : Store) : bool :=
  match fst (m s) with
  | Ok _ => false
  | Throw _ => true
  end.


(** ** Derived notions used in the statements *)

(** The inventory array after [reduceInventoryQuantity]. *)
Definition decrement (itemId : string) (amount : Z) (items : list InventoryItem)
  : list InventoryItem :=
  mutateFound (fun i => String.eqb (Item.id i) itemId)
    (fun item => setQuantity (Z.max 0 (Item.quantity item - amount)) item)
    items.

(** The second step of [createInvoice], as a fold over the line items. *)
Definition reduceAll (lines : list Line.t) (s : Store) : Store :=
  fold_left
    (fun s item => exec (reduceInventoryQuantity (Line.itemId item) (Line.quantity item)) s)
    lines s.

(** The invoice object that [createInvoice] builds. *)
Definition stored (uuid : string) (now : Z) (invoice : NewInvoice.t) : Invoice :=
  Invoice.mk uuid (NewInvoice.customerName invoice) (NewInvoice.items invoice)
             (NewInvoice.total invoice) now.

Definition nonNegative (item : InventoryItem) : Prop := 0 <= Item.quantity item.

Definition stockInvariant (s : Store) : Prop := Forall nonNegative (inventory s).

(** What the callers check before [addInventoryItem] and
    [updateInventoryItem]: a quantity that is given is not negative. *)
Definition guarded (op : Op) : Prop :=
  match op with
  | OpAdd _ _ item => 0 <= NewItem.quantity item
  | OpUpdate _ updates =>
      match Patch.quantity updates with
      | Some q => 0 <= q
      | None => True
      end
  | _ => True
  end.

(** The stores reached from the empty one by guarded operations. *)
Inductive reachable : Store -> Prop :=
| reachable_empty : reachable emptyStore
| reachable_run (s : Store) (op : Op) :
    reachable s -> guarded op -> reachable (run op s).

(** The stores reached from the empty one by any operations. *)
Inductive reachableAny : Store -> Prop :=
| reachableAny_empty : reachableAny emptyStore
| reachableAny_run (s : Store) (op : Op) :
    reachableAny s -> reachableAny (run op s).

(** The item of the end-to-end scenario. *)
Definition widget : NewItem.t := NewItem.mk "Widget" 10 50.

(** ** Sales windows, in the words of the specification *)

Definition days (n : Z) : Z := n * 24 * 60 * 60 * 1000.

(** The sum of the totals of the invoices created in [[lo, hi)]. *)
Fixpoint windowSales (lo hi : Z) (invs : list Invoice) : Z :=
  match invs with
  | [] => 0
  | inv :: rest =>
      (if (lo <=? Invoice.createdAt inv) && (Invoice.createdAt inv <? hi)
       then Invoice.total inv else 0)
      + windowSales lo hi rest
  end.

(** The sum of the totals of the invoices created at [lo] or later. *)
Fixpoint salesSince (lo : Z) (invs : list Invoice) : Z :=
  match invs with
  | [] => 0
  | inv :: rest =>
      (if lo <=? Invoice.createdAt inv then Invoice.total inv else 0)
      + salesSince lo rest
  end.

(** An invoice created at the very instant of the query. *)
Definition justCreated : Invoice :=
  Invoice.mk "i1" "Acme" [Line.mk "w1" "Widget" 3 50 150] 150 1700000000000.

(** ** Best seller, in the words of the specification *)

(** All line items, invoice after invoice. *)
Definition allLines (invs : list Invoice) : list Line.t :=
  flat_map Invoice.items invs.

(** The quantity sold of one product over all the lines. *)
Fixpoint soldQuantity (itemId : string) (lines : list Line.t) : Z :=
  match lines with
  | [] => 0
  | l :: rest =>
      (if String.eqb (Line.itemId l) itemId then Line.quantity l else 0)
      + soldQuantity itemId rest
  end.

(** The distinct product ids, in the order in which they are first seen. *)
Fixpoint firstSeen (lines : list Line.t) : list string :=
  match lines with
  | [] => []
  | l :: rest =>
      Line.itemId l
      :: filter (fun k => negb (String.eqb k (Line.itemId l))) (firstSeen rest)
  end.

(** The name on the first line that sells the product. *)
Fixpoint firstName (itemId : string) (lines : list Line.t) : string :=
  match lines with
  | [] => EmptyString
  | l :: rest =>
      if String.eqb (Line.itemId l) itemId then Line.itemName l
      else firstName itemId rest
  end.

Definition aggregate (lines : list Line.t) (itemId : string) : Product.t :=
  Product.mk (firstName itemId lines) (soldQuantity itemId lines).

(** An id that is neither an array index nor the name of a member of
    [Object.prototype]. *)
Definition plainId (id : string) : bool :=
  match arrayIndex id with
  | Some _ => false
  | None => negb (inherited id)
  end.

(** Whether a string holds a hyphen, as every UUID does. *)
Fixpoint hasHyphen (s : string) : bool :=
  match s with
  | EmptyString => false
  | String c rest => Ascii.eqb c "-" || hasHyphen rest
  end.

(** An entry of the table after the lines [lines] have been added to it. *)
Definition bump (lines : list Line.t) (entry : string * Product.t)
  : string * Product.t :=
  (fst entry,
   Product.mk (Product.name (snd entry))
              (Product.quantity (snd entry) + soldQuantity (fst entry) lines)).

Definition keyIn (k : string) (keys : list string) : bool :=
  existsb (String.eqb k) keys.

Definition fresh (table : list (string * Product.t)) (k : string) : bool :=
  negb (keyIn k (map fst table)).

(** Two products, each sold five times, on separate invoices. *)
Definition tiedSales : Store :=
  mkStore []
    [Invoice.mk "i1" "Acme" [Line.mk "w1" "Widget" 5 50 250] 250 1000;
     Invoice.mk "i2" "Bolt Co" [Line.mk "g1" "Gadget" 5 20 100] 100 2000]
    [].

(** The same with ids that are array indices, the larger one sold first. *)
Definition numberedSales : Store :=
  mkStore []
    [Invoice.mk "i1" "Acme" [Line.mk "2" "Two" 5 50 250] 250 1000;
     Invoice.mk "i2" "Bolt Co" [Line.mk "1" "One" 5 20 100] 100 2000]
    [].

(** A product whose id is the name of an inherited member. *)
Definition inheritedSales : Store :=
  mkStore []
    [Invoice.mk "i1" "Acme"
       [Line.mk "constructor" "Ctor" 9 1 9; Line.mk "w-1" "Widget" 2 50 100]
       109 1000]
    [].

(** ** Invoice creation, in the words of the specification *)

(** [line] is the entry for the pair [fi]: the name and the price are those
    of the inventory item the pair refers to, and the total is the price
    times the quantity. *)
Definition snapshotOf (inventory : list InventoryItem) (fi : FormItem.t)
    (line : Line.t) : Prop :=
  exists item,
    findById inventory (FormItem.itemId fi) = Some item /\
    line = Line.mk (FormItem.itemId fi) (Item.name item) (FormItem.quantity fi)
                   (Item.price item) (Item.price item * FormItem.quantity fi).

(** A pair the caller has validated: an id that is in the inventory, and a
    quantity above 0 that the stock covers. *)
Definition validated (inventory : list InventoryItem) (fi : FormItem.t) : Prop :=
  FormItem.itemId fi <> EmptyString /\
  0 < FormItem.quantity fi /\
  exists item,
    findById inventory (FormItem.itemId fi) = Some item /\
    FormItem.quantity fi <= Item.quantity item.

(** [reduceQuantity] in the words of the specification: the first item
    with the id gets the quantity [max 0 (quantity - amount)], every other
    item and field stays, and nothing changes when no item has the id. *)
Fixpoint clampFirst (id : string) (amount : Z) (items : list InventoryItem)
  : list InventoryItem :=
  match items with
  | [] => []
  | item :: rest =>
      if String.eqb (Item.id item) id
      then Item.mk (Item.id item) (Item.name item)
                   (Z.max 0 (Item.quantity item - amount))
                   (Item.price item) (Item.createdAt item) :: rest
      else item :: clampFirst id amount rest
  end.

(** The collection after the decrement of every line, in the order of the
    lines. *)
Fixpoint afterSale (lines : list Line.t) (items : list InventoryItem)
  : list InventoryItem :=
  match lines with
  | [] => items
  | l :: rest => afterSale rest (clampFirst (Line.itemId l) (Line.quantity l) items)
  end.

Definition hasId (id : string) (items : list InventoryItem) : bool :=
  existsb (fun item => String.eqb (Item.id item) id) items.

(** The inventory writes of the second step: one for each line whose
    product is in the collection, holding the collection after that line. *)
Fixpoint stockLog (lines : list Line.t) (items : list InventoryItem) : list Write :=
  match lines with
  | [] => []
  | l :: rest =>
      let items' := clampFirst (Line.itemId l) (Line.quantity l) items in
      if hasId (Line.itemId l) items
      then SetInventory items' :: stockLog rest items'
      else stockLog rest items'
  end.

(** A copy of the inventory that a page read before the price of the
    widget went from 40 to 50. *)
Definition staleCopy : list InventoryItem := [Item.mk "w1" "Widget" 10 40 1000].

Definition lineTotalOk (l : Line.t) : Prop :=
  Line.total l = Line.price l * Line.quantity l.

Definition runAll (ops : list Op) (s : Store) : Store :=
  fold_left (fun s op => run op s) ops s.

Definition created : Toast :=
  ToastInfo "Invoice Created" "Invoice generated and inventory updated automatically".

(** The sum of the line totals. *)
Fixpoint totalOf (lines : list Line.t) : Z :=
  match lines with
  | [] => 0
  | l :: rest => Line.total l + totalOf rest
  end.

(** The store of the end-to-end scenario once the item has been added. *)
Definition stocked : Store := run (OpAdd "w1" 1000 widget) emptyStore.

(** An item that fails every check of the form: no name, a negative
    quantity, a price of 0. *)
Definition badItem : NewItem.t := NewItem.mk "" (-1) 0.

(** An invoice without a customer name and without lines. *)
Definition badInvoice : NewInvoice.t := NewInvoice.mk "" [] 0.

(** ** More of the pages *)

(** The row that the invoice form starts with and that [addFormItem] adds. *)
Definition blankRow : FormItem.t := FormItem.mk "" 1.

Definition addFormItem (formItems : list FormItem.t) : list FormItem.t :=
  formItems ++ [blankRow].

(** [l.filter((_, i) => p i)], the first element of [l] being at position
    [start]. *)
Fixpoint filterIndex {A : Type} (p : nat -> bool) (start : nat) (l : list A)
  : list A :=
  match l with
  | [] => []
  | x :: rest =>
      if p start then x :: filterIndex p (S start) rest
      else filterIndex p (S start) rest
  end.

(** The rows after [removeFormItem(index)]. *)
Definition removeFormItem (index : nat) (formItems : list FormItem.t)
  : list FormItem.t :=
  if (1 <? List.length formItems)%nat
  then filterIndex (fun i => negb (i =? index)%nat) 0 formItems
  else formItems.

(** [calculateTotal] of the Invoices page, over the page's copy of the
    inventory. *)
Definition calculateTotal (inventory : list InventoryItem)
    (formItems : list FormItem.t) : Z :=
  fold_left
    (fun sum formItem =>
       match findById inventory (FormItem.itemId formItem) with
       | Some inventoryItem =>
           sum + Item.price inventoryItem * FormItem.quantity formItem
       | None => sum
       end)
    formItems 0.

(** [Array.prototype.sort] with the comparator
    [(a, b) => key b - key a]: the stable sort that puts larger keys first.
    An element goes in front of the first one whose key is not larger. *)
Fixpoint insertDesc {A : Type} (key : A -> Z) (x : A) (sorted : list A) : list A :=
  match sorted with
  | [] => [x]
  | y :: rest =>
      if key y <=? key x then x :: y :: rest
      else y :: insertDesc key x rest
  end.

Fixpoint sortDesc {A : Type} (key : A -> Z) (l : list A) : list A :=
  match l with
  | [] => []
  | x :: rest => insertDesc key x (sortDesc key rest)
  end.

(** The invoices that [loadData] of the Invoices page puts on the page, and
    the items that [loadItems] of the Inventory page puts on the page. *)
Definition loadData : M (list InventoryItem * list Invoice) :=
  inventory <- getInventory ;;
  invs <- getInvoices ;;
  ret (inventory, sortDesc Invoice.createdAt invs).

Definition loadItems : M (list InventoryItem) :=
  items <- getInventory ;;
  ret (sortDesc Item.createdAt items).

Section Calendar.

(** [Date.prototype.getMonth] and [Date.prototype.getFullYear] of a time
    value, in the local time zone. *)
Variable getMonth : Z -> Z.
Variable getFullYear : Z -> Z.

Definition getThisMonthSales (now : Z) : M Z :=
  let thisMonth := getMonth now in
  let thisYear := getFullYear now in
  invs <- getInvoices ;;
  ret (sumTotals
         (filter (fun inv =>
                    let date := Invoice.createdAt inv in
                    (getMonth date =? thisMonth) && (getFullYear date =? thisYear))
                 invs)).

End Calendar.

(** ** Notions used in the further statements *)

(** Everything of an item but its quantity. *)
Definition identity (item : InventoryItem) : string * string * Z * Z :=
  (Item.id item, Item.name item, Item.price item, Item.createdAt item).

(** The form operations. *)
Inductive FormOp : Type :=
| FormAdd
| FormRemove (index : nat).

Definition formStep (formItems : list FormItem.t) (op : FormOp) : list FormItem.t :=
  match op with
  | FormAdd => addFormItem formItems
  | FormRemove index => removeFormItem index formItems
  end.

(** The operations that write the inventory collection only. *)
Definition inventoryOnly (op : Op) : Prop :=
  match op with
  | OpCreateInvoice _ _ _ | OpDeleteInvoice _ => False
  | _ => True
  end.

(** Larger keys first. *)
Definition newerFirst {A : Type} (key : A -> Z) (a b : A) : Prop := key b <= key a.
(** * Properties *)

(** ** Arrays *)

Section ArrayFacts.
Context {A : Type}.
Variable p : A -> bool.
Variable f : A -> A.

Lemma mutateFound_absent (l : list A) :
  find p l = None -> mutateFound p f l = l.
Proof.
  induction l as [|x rest IH]; simpl; [reflexivity|].
  destruct (p x); [discriminate|].
  intros Hnone. now rewrite IH.
Qed.

Lemma mutateFound_first (before after : list A) (x : A) :
  (forall y, In y before -> p y = false) ->
  p x = true ->
  mutateFound p f (before ++ x :: after) = before ++ f x :: after.
Proof.
  induction before as [|b before IH]; simpl; intros Hbefore Hx.
  - now rewrite Hx.
  - rewrite (Hbefore b (or_introl eq_refl)).
    f_equal. apply IH; auto.
Qed.

Lemma mutateFound_Forall (P : A -> Prop) (l : list A) :
  (forall x, P x -> P (f x)) -> Forall P l -> Forall P (mutateFound p f l).
Proof.
  intros Hf. induction 1 as [|x rest Hx Hrest IH]; simpl; [constructor|].
  destruct (p x); constructor; auto.
Qed.

Lemma findIndex_nth (l : list A) (index : nat) (d : A) :
  findIndex p l = Some index ->
  (index < List.length l)%nat /\ p (nth index l d) = true.
Proof.
  revert index. induction l as [|x rest IH]; simpl; intros index; [discriminate|].
  destruct (p x) eqn:Hpx.
  - intros [= <-]. split; [lia | exact Hpx].
  - destruct (findIndex p rest) as [i|]; [|discriminate].
    intros [= <-]. destruct (IH i eq_refl). split; [lia | assumption].
Qed.

Lemma assignAt_Forall (P : A -> Prop) (l : list A) (index : nat) (x : A) :
  P x -> Forall P l -> Forall P (assignAt index x l).
Proof.
  intros Hx Hl. revert index.
  induction Hl as [|y rest Hy Hrest IH]; intros [|i]; simpl; constructor; auto.
Qed.

End ArrayFacts.

(** ** What each repository function leaves in the store *)

Lemma reduceInventoryQuantity_run (itemId : string) (amount : Z) (s : Store) :
  reduceInventoryQuantity itemId amount s =
  (Ok tt,
   match findById (inventory s) itemId with
   | Some _ =>
       mkStore (decrement itemId amount (inventory s)) (invoices s)
               (writes s ++ [SetInventory (decrement itemId amount (inventory s))])
   | None => s
   end).
Proof.
  unfold reduceInventoryQuantity, bind, getInventory, findById, decrement.
  destruct (find _ _); reflexivity.
Qed.

Lemma reduceInventoryQuantity_inventory (itemId : string) (amount : Z) (s : Store) :
  inventory (exec (reduceInventoryQuantity itemId amount) s) =
  decrement itemId amount (inventory s).
Proof.
  unfold exec. rewrite reduceInventoryQuantity_run. simpl.
  destruct (findById (inventory s) itemId) eqn:Hfind; simpl; [reflexivity|].
  unfold decrement. symmetry. now apply mutateFound_absent.
Qed.

Lemma reduceInventoryQuantity_invoices (itemId : string) (amount : Z) (s : Store) :
  invoices (exec (reduceInventoryQuantity itemId amount) s) = invoices s.
Proof.
  unfold exec. rewrite reduceInventoryQuantity_run. simpl.
  destruct (findById (inventory s) itemId); reflexivity.
Qed.

Lemma forEach_reduce_run (lines : list Line.t) (s : Store) :
  forEach lines
    (fun item => reduceInventoryQuantity (Line.itemId item) (Line.quantity item)) s =
  (Ok tt, reduceAll lines s).
Proof.
  revert s. induction lines as [|item rest IH]; intros s; simpl; [reflexivity|].
  unfold bind at 1. unfold exec.
  rewrite reduceInventoryQuantity_run. simpl. apply IH.
Qed.

Lemma createInvoice_run (uuid : string) (now : Z) (invoice : NewInvoice.t) (s : Store) :
  createInvoice uuid now invoice s =
  (Ok (stored uuid now invoice),
   reduceAll (NewInvoice.items invoice)
     (mkStore (inventory s) (invoices s ++ [stored uuid now invoice])
        (writes s ++ [SetInvoices (invoices s ++ [stored uuid now invoice])]))).
Proof.
  unfold createInvoice, bind, getInvoices, saveInvoices, ret. simpl.
  rewrite forEach_reduce_run. reflexivity.
Qed.

Lemma reduceAll_invoices (lines : list Line.t) (s : Store) :
  invoices (reduceAll lines s) = invoices s.
Proof.
  revert s. induction lines as [|item rest IH]; intros s; simpl; [reflexivity|].
  unfold reduceAll in IH. rewrite IH. apply reduceInventoryQuantity_invoices.
Qed.

Lemma reduceAll_inventory (lines : list Line.t) (s : Store) :
  inventory (reduceAll lines s) =
  fold_left (fun items item => decrement (Line.itemId item) (Line.quantity item) items)
            lines (inventory s).
Proof.
  revert s. induction lines as [|item rest IH]; intros s; simpl; [reflexivity|].
  unfold reduceAll in IH. rewrite IH. now rewrite reduceInventoryQuantity_inventory.
Qed.

(** ** The stock invariant *)

Lemma decrement_nonNegative (itemId : string) (amount : Z) (items : list InventoryItem) :
  Forall nonNegative items -> Forall nonNegative (decrement itemId amount items).
Proof.
  apply mutateFound_Forall. intros item _. unfold nonNegative. simpl. lia.
Qed.

Lemma reduceAll_nonNegative (lines : list Line.t) (s : Store) :
  stockInvariant s -> stockInvariant (reduceAll lines s).
Proof.
  unfold stockInvariant. rewrite reduceAll_inventory.
  generalize (inventory s) as items.
  induction lines as [|item rest IH]; intros items Hitems; simpl; [assumption|].
  apply IH. now apply decrement_nonNegative.
Qed.

Lemma find_absent {A : Type} (p : A -> bool) (l : list A) :
  (forall x, In x l -> p x = false) -> find p l = None.
Proof.
  induction l as [|x rest IH]; simpl; intros Hall; [reflexivity|].
  rewrite (Hall x (or_introl eq_refl)). apply IH. auto.
Qed.

Lemma run_guarded_invariant (op : Op) (s : Store) :
  guarded op -> stockInvariant s -> stockInvariant (run op s).
Proof.
  unfold stockInvariant.
  destruct op as [uuid now item|id updates|id|id amount|uuid now invoice|id];
    simpl; intros Hop Hs.
  - apply Forall_app. split; [assumption|].
    constructor; [exact Hop | constructor].
  - unfold exec, updateInventoryItem, bind, getInventory.
    destruct (findIndex _ _) as [index|] eqn:Hindex; simpl; [|assumption].
    apply assignAt_Forall; [|assumption].
    unfold nonNegative, merge. simpl.
    destruct (Patch.quantity updates) as [q|]; simpl; [exact Hop|].
    apply findIndex_nth with (d := Item.mk "" "" 0 0 0) in Hindex.
    destruct Hindex as [Hlt _].
    rewrite Forall_forall in Hs. apply Hs. now apply nth_In.
  - unfold exec, deleteInventoryItem, bind, getInventory. simpl.
    rewrite Forall_forall in *. intros x Hx.
    apply filter_In in Hx. apply Hs, Hx.
  - rewrite reduceInventoryQuantity_inventory. now apply decrement_nonNegative.
  - unfold exec. rewrite createInvoice_run. simpl.
    now apply reduceAll_nonNegative.
  - exact Hs.
Qed.

(** C1, as the code has it: [reduceInventoryQuantity], both deletions and
    [createInvoice] keep every quantity at or above 0; [addInventoryItem]
    and [updateInventoryItem] store the quantity they are given, so they
    keep the invariant when that quantity is not negative.  Every store
    reached from the empty one by such operations has no quantity below 0. *)
Theorem stock_never_negative :
  (forall op s, guarded op -> stockInvariant s -> stockInvariant (run op s)) /\
  (forall s, reachable s -> stockInvariant s).
Proof.
  split.
  - exact run_guarded_invariant.
  - induction 1 as [|s op Hreach IH Hop].
    + constructor.
    + now apply run_guarded_invariant.
Qed.

Lemma stock_never_negative_witness :
  stockInvariant
    (run (OpReduce "w1" 25) (run (OpAdd "w1" 1000 widget) emptyStore)).
Proof.
  apply (proj2 stock_never_negative).
  apply reachable_run; [|exact I].
  apply reachable_run; [apply reachable_empty|].
  simpl. lia.
Defined.

(** C1 as stated fails: [updateInventoryItem] stores a negative quantity it
    is handed, in a store that the repository operations reach. *)
Lemma update_breaks_stock_invariant :
  let s := run (OpAdd "w1" 1000 widget) emptyStore in
  let updates := Patch.mk None None (Some (-1)) None None in
  reachableAny s /\ stockInvariant s /\
  inventory (run (OpUpdate "w1" updates) s) = [Item.mk "w1" "Widget" (-1) 50 1000] /\
  ~ stockInvariant (run (OpUpdate "w1" updates) s).
Proof.
  simpl. repeat split.
  - apply (reachableAny_run emptyStore (OpAdd "w1" 1000 widget)), reachableAny_empty.
  - constructor; [|constructor]. unfold nonNegative. simpl. lia.
  - intros Hinv. inversion Hinv as [|x l Hneg _]. unfold nonNegative in Hneg.
    simpl in Hneg. lia.
Qed.

(** C2: [reduceInventoryQuantity] never raises, leaves the invoices alone,
    leaves the whole store alone when no item has the id, and otherwise
    replaces the quantity of the first item with that id by
    [max 0 (quantity - amount)], every other item and field staying as it
    was. *)
Theorem reduceInventoryQuantity_clamps (s : Store) (itemId : string) (amount : Z) :
  raises (reduceInventoryQuantity itemId amount) s = false /\
  invoices (exec (reduceInventoryQuantity itemId amount) s) = invoices s /\
  ((forall i, In i (inventory s) -> Item.id i <> itemId) ->
   exec (reduceInventoryQuantity itemId amount) s = s) /\
  (forall before item after,
     inventory s = before ++ item :: after ->
     (forall i, In i before -> Item.id i <> itemId) ->
     Item.id item = itemId ->
     inventory (exec (reduceInventoryQuantity itemId amount) s) =
     before ++
       Item.mk (Item.id item) (Item.name item)
               (Z.max 0 (Item.quantity item - amount))
               (Item.price item) (Item.createdAt item) :: after).
Proof.
  split; [|split; [|split]].
  - unfold raises. now rewrite reduceInventoryQuantity_run.
  - apply reduceInventoryQuantity_invoices.
  - intros Habsent. unfold exec. rewrite reduceInventoryQuantity_run. simpl.
    unfold findById. rewrite find_absent; [reflexivity|].
    intros x Hx. apply String.eqb_neq. now apply Habsent.
  - intros before item after Hsplit Hbefore Hid.
    rewrite reduceInventoryQuantity_inventory, Hsplit.
    unfold decrement. rewrite mutateFound_first.
    + reflexivity.
    + intros y Hy. apply String.eqb_neq. now apply Hbefore.
    + now apply String.eqb_eq.
Qed.

Lemma reduceInventoryQuantity_clamps_witness :
  let s := mkStore [Item.mk "a" "Nail" 8 2 10; Item.mk "b" "Bolt" 3 5 20] [] [] in
  inventory (exec (reduceInventoryQuantity "b" 10) s) =
    [Item.mk "a" "Nail" 8 2 10; Item.mk "b" "Bolt" 0 5 20] /\
  exec (reduceInventoryQuantity "c" 10) s = s.
Proof.
  intros s. split.
  - apply (proj2 (proj2 (proj2 (reduceInventoryQuantity_clamps s "b" 10)))
             [Item.mk "a" "Nail" 8 2 10] (Item.mk "b" "Bolt" 3 5 20) []).
    + reflexivity.
    + intros i [<-|[]]. simpl. discriminate.
    + reflexivity.
  - apply (proj1 (proj2 (proj2 (reduceInventoryQuantity_clamps s "c" 10)))).
    intros i [<-|[<-|[]]]; simpl; discriminate.
Defined.

(** C6: [deleteInvoice] never raises, keeps exactly the invoices with
    another id, in their order, is without effect on the collection when no
    invoice has the id, and leaves the inventory as it was: the stock that
    the invoice consumed is not given back. *)
Theorem deleteInvoice_frame (s : Store) (id : string) :
  raises (deleteInvoice id) s = false /\
  inventory (exec (deleteInvoice id) s) = inventory s /\
  (forall inv, In inv (invoices (exec (deleteInvoice id) s)) <->
               In inv (invoices s) /\ Invoice.id inv <> id) /\
  (forall before inv after,
     invoices s = before ++ inv :: after ->
     Invoice.id inv = id ->
     (forall other, In other (before ++ after) -> Invoice.id other <> id) ->
     invoices (exec (deleteInvoice id) s) = before ++ after) /\
  ((forall inv, In inv (invoices s) -> Invoice.id inv <> id) ->
   invoices (exec (deleteInvoice id) s) = invoices s).
Proof.
  assert (Hkeep : forall l : list Invoice,
             (forall inv, In inv l -> Invoice.id inv <> id) ->
             filter (fun inv => negb (String.eqb (Invoice.id inv) id)) l = l).
  { induction l as [|x rest IH]; simpl; intros Hall; [reflexivity|].
    destruct (String.eqb_spec (Invoice.id x) id) as [Heq|Hneq]; simpl.
    - now elim (Hall x (or_introl eq_refl)).
    - rewrite IH; auto. }
  unfold exec, deleteInvoice, bind, getInvoices, saveInvoices, raises. simpl.
  split; [reflexivity|]. split; [reflexivity|]. split; [|split].
  - intros inv. rewrite filter_In, negb_true_iff, String.eqb_neq. tauto.
  - intros before inv after -> Hid Hothers.
    rewrite filter_app. simpl.
    apply String.eqb_eq in Hid. rewrite Hid. simpl.
    rewrite <- filter_app. now apply Hkeep.
  - apply Hkeep.
Qed.

Lemma deleteInvoice_frame_witness :
  let s := run (OpCreateInvoice "i1" 2000
                  (NewInvoice.mk "Acme" [Line.mk "w1" "Widget" 3 50 150] 150))
               (run (OpAdd "w1" 1000 widget) emptyStore) in
  map Item.quantity (inventory s) = [7] /\
  map Item.quantity (inventory (exec (deleteInvoice "i1") s)) = [7] /\
  invoices (exec (deleteInvoice "i1") s) = [] /\
  invoices (exec (deleteInvoice "i2") s) = invoices s.
Proof.
  intros s. split; [reflexivity|]. split; [|split].
  - rewrite (proj1 (proj2 (deleteInvoice_frame s "i1"))). reflexivity.
  - apply (proj1 (proj2 (proj2 (proj2 (deleteInvoice_frame s "i1"))))
             [] (Invoice.mk "i1" "Acme" [Line.mk "w1" "Widget" 3 50 150] 150 2000) []).
    + reflexivity.
    + reflexivity.
    + intros other [].
  - apply (proj2 (proj2 (proj2 (proj2 (deleteInvoice_frame s "i2"))))).
    intros inv [<-|[]]. simpl. discriminate.
Defined.

(** ** Sales windows *)

Lemma sumTotals_from (invs : list Invoice) (a : Z) :
  fold_left (fun sum inv => sum + Invoice.total inv) invs a = a + sumTotals invs.
Proof.
  unfold sumTotals. revert a.
  induction invs as [|x rest IH]; intros a; simpl; [lia|].
  rewrite (IH (a + Invoice.total x)), (IH (Invoice.total x)). lia.
Qed.

Lemma sumTotals_cons (inv : Invoice) (invs : list Invoice) :
  sumTotals (inv :: invs) = Invoice.total inv + sumTotals invs.
Proof.
  unfold sumTotals at 1. simpl. apply sumTotals_from.
Qed.

Lemma sumTotals_window (lo hi : Z) (invs : list Invoice) :
  sumTotals
    (filter (fun inv => (lo <=? Invoice.createdAt inv) && (Invoice.createdAt inv <? hi)) invs)
  = windowSales lo hi invs.
Proof.
  induction invs as [|inv rest IH]; simpl; [reflexivity|].
  destruct ((lo <=? Invoice.createdAt inv) && (Invoice.createdAt inv <? hi)).
  - rewrite sumTotals_cons, IH. reflexivity.
  - rewrite IH. reflexivity.
Qed.

Lemma sumTotals_since (lo : Z) (invs : list Invoice) :
  sumTotals (filter (fun inv => lo <=? Invoice.createdAt inv) invs) = salesSince lo invs.
Proof.
  induction invs as [|inv rest IH]; simpl; [reflexivity|].
  destruct (lo <=? Invoice.createdAt inv).
  - rewrite sumTotals_cons, IH. reflexivity.
  - rewrite IH. reflexivity.
Qed.

Lemma salesSince_window (lo hi : Z) (invs : list Invoice) :
  Forall (fun inv => Invoice.createdAt inv < hi) invs ->
  salesSince lo invs = windowSales lo hi invs.
Proof.
  induction 1 as [|inv rest Hinv Hrest IH]; simpl; [reflexivity|].
  rewrite IH. apply Z.ltb_lt in Hinv. rewrite Hinv, andb_true_r. reflexivity.
Qed.

(** C7, as the code has it: [getLastWeekSales] sums the totals of exactly
    the invoices created in [[now - 14d, now - 7d)]; [getThisWeekSales] sums
    those created at [now - 7d] or later, with no upper bound, which is the
    window [[now - 7d, now)] when every invoice was created before [now].
    Neither raises nor writes. *)
Theorem week_sales_windows (now : Z) (s : Store) :
  getLastWeekSales now s =
    (Ok (windowSales (now - days 14) (now - days 7) (invoices s)), s) /\
  getThisWeekSales now s = (Ok (salesSince (now - days 7) (invoices s)), s) /\
  (Forall (fun inv => Invoice.createdAt inv < now) (invoices s) ->
   getThisWeekSales now s =
     (Ok (windowSales (now - days 7) now (invoices s)), s)).
Proof.
  unfold getLastWeekSales, getThisWeekSales, bind, getInvoices, ret, days.
  rewrite sumTotals_window, sumTotals_since.
  replace (14 * 24 * 60 * 60 * 1000) with 1209600000 by reflexivity.
  replace (7 * 24 * 60 * 60 * 1000) with 604800000 by reflexivity.
  repeat split.
  intros Hpast. now rewrite (salesSince_window _ now).
Qed.

Lemma week_sales_windows_witness :
  let s := mkStore [] [justCreated] [] in
  getThisWeekSales 1700000000001 s = (Ok 150, s).
Proof.
  intros s.
  rewrite (proj2 (proj2 (week_sales_windows 1700000000001 s))).
  - reflexivity.
  - constructor; [|constructor]. simpl. lia.
Defined.

(** C7 as stated fails: an invoice whose [createdAt] is the instant of the
    query lies outside [[now - 7d, now)], and [getThisWeekSales] counts it. *)
Lemma this_week_counts_now :
  let now := 1700000000000 in
  let s := mkStore [] [justCreated] [] in
  Invoice.createdAt justCreated = now /\
  windowSales (now - days 7) now (invoices s) = 0 /\
  fst (getThisWeekSales now s) = Ok 150 /\
  fst (getThisWeekSales now s) <> Ok (windowSales (now - days 7) now (invoices s)).
Proof.
  repeat split. discriminate.
Qed.

(** ** The sales table of [getTopSellingProduct] *)

Lemma collectSales_lines (invs : list Invoice) :
  collectSales invs = fold_left recordSale (allLines invs) [].
Proof.
  unfold collectSales, allLines. generalize (@nil (string * Product.t)) as acc.
  induction invs as [|inv rest IH]; intros acc; simpl; [reflexivity|].
  rewrite fold_left_app. apply IH.
Qed.

Lemma keyIn_In (k : string) (keys : list string) :
  keyIn k keys = true <-> In k keys.
Proof.
  unfold keyIn. rewrite existsb_exists. split.
  - intros (x & Hx & Heq). apply String.eqb_eq in Heq. now subst.
  - intros Hin. exists k. split; [assumption | apply String.eqb_refl].
Qed.

Lemma keyIn_not_In (k : string) (keys : list string) :
  keyIn k keys = false <-> ~ In k keys.
Proof.
  rewrite <- keyIn_In. destruct (keyIn k keys); split; intros H;
    try reflexivity; try discriminate; try (intros H'; discriminate).
  now elim H.
Qed.

Lemma lookup_keyIn (k : string) (table : list (string * Product.t)) :
  lookup k table = None <-> keyIn k (map fst table) = false.
Proof.
  induction table as [|[k' p] rest IH]; simpl; [tauto|].
  rewrite (String.eqb_sym k k').
  destruct (String.eqb k' k); simpl; [|exact IH].
  split; discriminate.
Qed.

Lemma addQuantity_keys (a : string) (q : Z) (table : list (string * Product.t)) :
  map fst (addQuantity a q table) = map fst table.
Proof.
  induction table as [|[k p] rest IH]; simpl; [reflexivity|].
  destruct (String.eqb k a); simpl; [reflexivity|]. now rewrite IH.
Qed.

Lemma addQuantity_new (a nm : string) (q : Z) (table : list (string * Product.t)) :
  ~ In a (map fst table) ->
  addQuantity a q (table ++ [(a, Product.mk nm 0)]) = table ++ [(a, Product.mk nm q)].
Proof.
  induction table as [|[k p] rest IH]; simpl; intros Hnot.
  - now rewrite String.eqb_refl.
  - destruct (String.eqb_spec k a) as [->|Hneq].
    + elim Hnot. now left.
    + rewrite IH; [reflexivity|]. intros Hin. apply Hnot. now right.
Qed.

Lemma bump_other (l : Line.t) (rest : list Line.t) (table : list (string * Product.t)) :
  ~ In (Line.itemId l) (map fst table) ->
  map (bump (l :: rest)) table = map (bump rest) table.
Proof.
  intros Hnot. apply map_ext_in. intros [k p] Hin. unfold bump. simpl.
  destruct (String.eqb_spec (Line.itemId l) k) as [Heq|Hneq]; [|reflexivity].
  elim Hnot. rewrite Heq. apply (in_map fst _ _ Hin).
Qed.

Lemma bump_addQuantity (l : Line.t) (rest : list Line.t)
    (table : list (string * Product.t)) :
  NoDup (map fst table) ->
  map (bump rest) (addQuantity (Line.itemId l) (Line.quantity l) table) =
  map (bump (l :: rest)) table.
Proof.
  induction table as [|[k p] tl IH]; simpl; intros Hnodup; [reflexivity|].
  inversion Hnodup as [|k' tl' Hk Htl]; subst.
  destruct (String.eqb_spec k (Line.itemId l)) as [->|Hneq]; simpl.
  - rewrite (bump_other l rest tl Hk). f_equal.
    unfold bump. simpl. rewrite String.eqb_refl. f_equal. f_equal. lia.
  - rewrite IH by assumption. f_equal.
    unfold bump. simpl.
    destruct (String.eqb_spec (Line.itemId l) k) as [Heq|_]; [now elim Hneq|].
    reflexivity.
Qed.

Lemma bump_nil (table : list (string * Product.t)) : map (bump []) table = table.
Proof.
  induction table as [|[k [nm q]] tl IH]; simpl; [reflexivity|].
  rewrite IH. unfold bump. simpl. now rewrite Z.add_0_r.
Qed.

Lemma filter_filter {A : Type} (p q : A -> bool) (l : list A) :
  filter p (filter q l) = filter (fun x => q x && p x) l.
Proof.
  induction l as [|x rest IH]; simpl; [reflexivity|].
  destruct (q x); simpl; [destruct (p x)|]; now rewrite IH.
Qed.

Lemma aggregate_other (l : Line.t) (rest : list Line.t) (k : string) :
  k <> Line.itemId l -> aggregate (l :: rest) k = aggregate rest k.
Proof.
  intros Hneq. unfold aggregate. simpl.
  destruct (String.eqb_spec (Line.itemId l) k) as [Heq|_]; [now elim Hneq|].
  reflexivity.
Qed.

(** The table after a run of [recordSale] over lines whose ids are not
    inherited names, from any table with distinct keys: the old entries
    with their quantity raised, then the new products in the order in which
    the lines first mention them. *)
Lemma recordSale_fold (lines : list Line.t) (table : list (string * Product.t)) :
  Forall (fun l => inherited (Line.itemId l) = false) lines ->
  NoDup (map fst table) ->
  fold_left recordSale lines table =
  map (bump lines) table ++
  map (fun k => (k, aggregate lines k)) (filter (fresh table) (firstSeen lines)).
Proof.
  intros Hown. revert table.
  induction Hown as [|l rest Hl _ IH]; intros table Hnodup; simpl.
  - now rewrite bump_nil, app_nil_r.
  - set (a := Line.itemId l). set (q := Line.quantity l).
    assert (Hrest : forall table',
               (forall k, fresh table' k = fresh table k && negb (String.eqb k a)) ->
               map (fun k => (k, aggregate rest k)) (filter (fresh table') (firstSeen rest)) =
               map (fun k => (k, aggregate (l :: rest) k))
                   (filter (fresh table)
                           (filter (fun k => negb (String.eqb k a)) (firstSeen rest)))).
    { intros table' Hfresh. rewrite filter_filter.
      rewrite (filter_ext _ _ Hfresh).
      rewrite (filter_ext (fun k => fresh table k && negb (String.eqb k a))
                          (fun k => negb (String.eqb k a) && fresh table k))
        by (intros k; apply andb_comm).
      apply map_ext_in. intros k Hk. apply filter_In in Hk.
      destruct Hk as [_ Hk]. apply andb_true_iff in Hk. destruct Hk as [Hk _].
      apply negb_true_iff, String.eqb_neq in Hk.
      now rewrite aggregate_other. }
    unfold recordSale at 2. rewrite Hl. fold a. fold q.
    destruct (lookup a table) as [p|] eqn:Hlookup.
    + assert (Hin : keyIn a (map fst table) = true).
      { destruct (keyIn a (map fst table)) eqn:Hkey; [reflexivity|].
        apply lookup_keyIn in Hkey. congruence. }
      rewrite IH by (now rewrite addQuantity_keys).
      unfold a, q at 1. rewrite bump_addQuantity by assumption. f_equal.
      unfold fresh at 2. fold a. rewrite Hin. simpl.
      apply Hrest. intros k. unfold fresh. rewrite addQuantity_keys.
      destruct (String.eqb_spec k a) as [->|_]; simpl.
      * now rewrite Hin.
      * now rewrite andb_true_r.
    + apply lookup_keyIn in Hlookup.
      assert (Hnot : ~ In a (map fst table)) by now apply keyIn_not_In.
      rewrite addQuantity_new by assumption.
      rewrite IH.
      2:{ rewrite map_app. simpl. apply NoDup_app; [assumption | |].
          - constructor; [intros [] | constructor].
          - intros k Hk [<-|[]]. now apply Hnot. }
      rewrite map_app. simpl. rewrite <- app_assoc. simpl.
      rewrite (bump_other l rest table Hnot). f_equal.
      unfold fresh at 2. fold a. rewrite Hlookup. simpl.
      unfold bump, aggregate. simpl. fold a. fold q.
      rewrite String.eqb_refl. f_equal.
      apply Hrest. intros k. unfold fresh, keyIn.
      rewrite map_app, existsb_app. simpl.
      now rewrite orb_false_r, negb_orb.
Qed.

Lemma reduceTop_cons (cur x : Product.t) (rest : list Product.t) :
  reduceTop cur (x :: rest) =
  reduceTop (if Product.quantity cur <? Product.quantity x then x else cur) rest.
Proof. reflexivity. Qed.

Lemma reduceTop_leader (rest pre mid : list Product.t) (cur : Product.t) :
  (forall p, In p pre -> Product.quantity p < Product.quantity cur) ->
  (forall p, In p mid -> Product.quantity p <= Product.quantity cur) ->
  exists before after,
    pre ++ cur :: mid ++ rest = before ++ reduceTop cur rest :: after /\
    (forall p, In p before -> Product.quantity p < Product.quantity (reduceTop cur rest)) /\
    (forall p, In p after -> Product.quantity p <= Product.quantity (reduceTop cur rest)).
Proof.
  revert pre mid cur.
  induction rest as [|x rest IH]; intros pre mid cur Hpre Hmid.
  - exists pre, mid. rewrite app_nil_r. simpl. auto.
  - rewrite reduceTop_cons.
    destruct (Product.quantity cur <? Product.quantity x) eqn:Hlt.
    + apply Z.ltb_lt in Hlt.
      destruct (IH (pre ++ cur :: mid) [] x) as (before & after & Heq & Hb & Ha).
      * intros p Hp. apply in_app_or in Hp.
        destruct Hp as [Hp|[<-|Hp]]; [apply Hpre in Hp | | apply Hmid in Hp]; lia.
      * intros p [].
      * exists before, after. rewrite <- Heq, <- app_assoc. simpl. auto.
    + apply Z.ltb_ge in Hlt.
      destruct (IH pre (mid ++ [x]) cur) as (before & after & Heq & Hb & Ha).
      * exact Hpre.
      * intros p Hp. apply in_app_or in Hp.
        destruct Hp as [Hp|[<-|[]]]; [now apply Hmid | assumption].
      * exists before, after. rewrite <- Heq, <- app_assoc. simpl. auto.
Qed.

Lemma plainId_spec (id : string) :
  plainId id = true -> arrayIndex id = None /\ inherited id = false.
Proof.
  unfold plainId. destruct (arrayIndex id); [discriminate|].
  intros Hown. split; [reflexivity | now apply negb_true_iff].
Qed.

Lemma firstSeen_incl (lines : list Line.t) (k : string) :
  In k (firstSeen lines) -> In k (map Line.itemId lines).
Proof.
  induction lines as [|l rest IH]; simpl; [tauto|].
  intros [Hk|Hk]; [now left|]. right. apply IH.
  apply filter_In in Hk. tauto.
Qed.

Lemma objectValues_named (f : string -> Product.t) (keys : list string) :
  (forall k, In k keys -> arrayIndex k = None) ->
  objectValues (map (fun k => (k, f k)) keys) = map f keys.
Proof.
  intros Hnamed. unfold objectValues.
  assert (Hboth : indexedEntries (map (fun k => (k, f k)) keys) = [] /\
                  namedEntries (map (fun k => (k, f k)) keys) = map f keys).
  { induction keys as [|k rest IH]; simpl; [now split|].
    rewrite (Hnamed k (or_introl eq_refl)).
    destruct IH as [Hindexed Hnames]; [intros k' Hk'; apply Hnamed; now right|].
    split; [exact Hindexed | now rewrite Hnames]. }
  destruct Hboth as [-> ->]. reflexivity.
Qed.

Lemma collectSales_table (invs : list Invoice) :
  Forall (fun l => plainId (Line.itemId l) = true) (allLines invs) ->
  objectValues (collectSales invs) =
  map (aggregate (allLines invs)) (firstSeen (allLines invs)).
Proof.
  intros Hplain.
  rewrite collectSales_lines, recordSale_fold; [|
    apply Forall_forall; intros l Hl; rewrite Forall_forall in Hplain;
    now apply plainId_spec, Hplain | constructor].
  simpl.
  assert (Hall : forall keys : list string, filter (fresh []) keys = keys).
  { induction keys as [|k ks IH]; simpl; [reflexivity | now rewrite IH]. }
  rewrite Hall. apply objectValues_named.
  intros k Hk. apply firstSeen_incl in Hk. apply in_map_iff in Hk.
  destruct Hk as (l & <- & Hl). rewrite Forall_forall in Hplain.
  now apply plainId_spec, Hplain.
Qed.

Lemma parseDigits_hyphen (s : string) (acc : N) :
  hasHyphen s = true -> parseDigits s acc = None.
Proof.
  revert acc. induction s as [|c rest IH]; simpl; intros acc; [discriminate|].
  destruct (Ascii.eqb_spec c "-") as [->|_]; simpl.
  - reflexivity.
  - intros Hrest. destruct (digitOf c); [now apply IH | reflexivity].
Qed.

Lemma hyphen_plain (id : string) : hasHyphen id = true -> plainId id = true.
Proof.
  intros Hhyphen. unfold plainId.
  assert (Hindex : arrayIndex id = None).
  { destruct id as [|c rest]; [discriminate|]. unfold arrayIndex.
    destruct (Ascii.eqb_spec c "0") as [->|_].
    - destruct rest; [discriminate | reflexivity].
    - now rewrite parseDigits_hyphen. }
  rewrite Hindex. apply negb_true_iff.
  unfold inherited, prototypeMembers. simpl.
  repeat match goal with
         | |- context [String.eqb id ?name] =>
             destruct (String.eqb_spec id name) as [Heq|_];
             [rewrite Heq in Hhyphen; discriminate|]
         end.
  reflexivity.
Qed.

Lemma getTopSellingProduct_run (s : Store) :
  exists top, getTopSellingProduct s = (Ok top, s).
Proof.
  unfold getTopSellingProduct, bind, getInvoices.
  destruct (objectValues (collectSales (invoices s))) as [|first rest].
  - now exists None.
  - now exists (Some (reduceTop first rest)).
Qed.

(** C8, as the code has it: [getTopSellingProduct] reads the invoices
    without raising or writing and answers [null] when there is no invoice.
    When no id sold is an array index or the name of a member of
    [Object.prototype], which is so for every id that holds a hyphen, as
    the generated UUIDs do, it answers [null] exactly when there is no line
    item, and otherwise the aggregate (first name seen, total quantity over
    all lines) of one product id [k]; every product first seen before [k]
    sold strictly less in total, and every product first seen after [k]
    sold at most as much: the leader is the earliest product with the
    largest total. *)
Theorem top_selling_product (s : Store) :
  let lines := allLines (invoices s) in
  snd (getTopSellingProduct s) = s /\
  raises getTopSellingProduct s = false /\
  (invoices s = [] -> fst (getTopSellingProduct s) = Ok None) /\
  (forall id, hasHyphen id = true -> plainId id = true) /\
  (Forall (fun l => plainId (Line.itemId l) = true) lines ->
   (fst (getTopSellingProduct s) = Ok None <-> lines = []) /\
   (forall top, fst (getTopSellingProduct s) = Ok (Some top) ->
      exists before k after,
        firstSeen lines = before ++ k :: after /\
        top = aggregate lines k /\
        (forall k', In k' before -> soldQuantity k' lines < soldQuantity k lines) /\
        (forall k', In k' after -> soldQuantity k' lines <= soldQuantity k lines))).
Proof.
  intros lines.
  split; [|split; [|split; [|split; [exact hyphen_plain|]]]].
  - destruct (getTopSellingProduct_run s) as (top & ->). reflexivity.
  - unfold raises. destruct (getTopSellingProduct_run s) as (top & ->). reflexivity.
  - intros Hempty. unfold getTopSellingProduct, bind, getInvoices.
    rewrite Hempty. reflexivity.
  - intros Hplain.
    unfold getTopSellingProduct, bind, getInvoices. simpl.
    rewrite (collectSales_table (invoices s) Hplain). fold lines.
    destruct (firstSeen lines) as [|k0 ks] eqn:Hkeys; simpl.
    + assert (Hnil : lines = []) by (destruct lines; [reflexivity | discriminate]).
      split; [tauto | discriminate].
    + assert (Hcons : lines <> []) by (intros Hnil; rewrite Hnil in Hkeys; discriminate).
      split; [split; [discriminate | intros Hnil; now elim Hcons]|].
      intros top [= <-].
      destruct (reduceTop_leader (map (aggregate lines) ks) [] [] (aggregate lines k0))
        as (before & after & Heq & Hb & Ha); try (intros p []).
      simpl in Heq.
      change (aggregate lines k0 :: map (aggregate lines) ks)
        with (map (aggregate lines) (k0 :: ks)) in Heq.
      apply map_eq_app in Heq. destruct Heq as (kb & krest & Hsplit & Hkb & Hkrest).
      apply map_eq_cons in Hkrest. destruct Hkrest as (k & ka & -> & Hk & Hka).
      exists kb, k, ka. split; [exact Hsplit|]. split; [now rewrite Hk|].
      rewrite <- Hk in Hb, Ha. simpl in Hb, Ha. split.
      * intros k' Hk'. apply (Hb (aggregate lines k')).
        rewrite <- Hkb. now apply in_map.
      * intros k' Hk'. apply (Ha (aggregate lines k')).
        rewrite <- Hka. now apply in_map.
Qed.

Lemma top_selling_product_witness :
  let lines := allLines (invoices tiedSales) in
  fst (getTopSellingProduct tiedSales) = Ok (Some (Product.mk "Widget" 5)) /\
  firstSeen lines = ["w1"; "g1"]%string /\
  exists before k after,
    firstSeen lines = before ++ k :: after /\
    Product.mk "Widget" 5 = aggregate lines k /\
    (forall k', In k' before -> soldQuantity k' lines < soldQuantity k lines) /\
    (forall k', In k' after -> soldQuantity k' lines <= soldQuantity k lines).
Proof.
  intros lines. split; [reflexivity|]. split; [reflexivity|].
  destruct (top_selling_product tiedSales) as (_ & _ & _ & _ & Hleader).
  apply Hleader.
  - repeat constructor.
  - reflexivity.
Defined.

(** C8 as stated fails.  Product "2" is sold first and product "1" after
    it, five units each: [Object.values] lists "1" first and the answer is
    product "1", not the first seen.  And the sales of a product whose id
    is [constructor] are never tabled, so a product that sold less is the
    answer. *)
Lemma index_ids_reorder_leader :
  let lines := allLines (invoices numberedSales) in
  firstSeen lines = ["2"; "1"]%string /\
  aggregate lines "2" = Product.mk "Two" 5 /\
  fst (getTopSellingProduct numberedSales) = Ok (Some (Product.mk "One" 5)) /\
  fst (getTopSellingProduct numberedSales) <> Ok (Some (aggregate lines "2")) /\
  soldQuantity "constructor" (allLines (invoices inheritedSales)) = 9 /\
  fst (getTopSellingProduct inheritedSales) = Ok (Some (Product.mk "Widget" 2)).
Proof.
  repeat split. discriminate.
Qed.

(** ** Insights *)

Lemma fallback_nonempty (insights : list string) :
  (if (List.length insights =? 0)%nat then push insights welcome else insights) <> [].
Proof.
  destruct insights as [|i rest]; simpl; discriminate.
Qed.

(** C9: with no inventory item and no invoice, [generateInsights] returns
    the welcome message and nothing else, whatever the clock, the time zone
    and the locale. *)
Theorem generateInsights_empty
    (toDateString toLocaleString : Z -> string) (percentIncrease : Z -> Z -> string)
    (nowThisWeek nowLastWeek nowToday : Z) (log : list Write) :
  generateInsights toDateString toLocaleString percentIncrease nowThisWeek nowLastWeek nowToday
                   (mkStore [] [] log)
  = (Ok [welcome], mkStore [] [] log).
Proof. reflexivity. Qed.

(** C10: in every store, [generateInsights] returns, without raising or
    writing, a list that holds at least one insight. *)
Theorem generateInsights_nonempty
    (toDateString toLocaleString : Z -> string) (percentIncrease : Z -> Z -> string)
    (nowThisWeek nowLastWeek nowToday : Z) (s : Store) :
  exists first rest,
    generateInsights toDateString toLocaleString percentIncrease nowThisWeek nowLastWeek nowToday s
    = (Ok (first :: rest), s).
Proof.
  unfold generateInsights.
  unfold bind at 1. unfold getThisWeekSales at 1, bind at 1, getInvoices at 1, ret at 1.
  unfold bind at 1. unfold getLastWeekSales at 1, bind at 1, getInvoices at 1, ret at 1.
  unfold bind at 1. unfold getLowStockItems at 1, bind at 1, getInventory at 1, ret at 1.
  unfold bind at 1.
  destruct (getTopSellingProduct_run s) as (top & ->).
  unfold bind at 1. unfold getTodaySales at 1, bind at 1, getInvoices at 1, ret at 1.
  unfold ret.
  match goal with
  | |- context [if (List.length ?l =? 0)%nat then _ else _] =>
      pose proof (fallback_nonempty l) as Hne;
      destruct (if (List.length l =? 0)%nat then push l welcome else l)
        as [|first rest]
  end.
  - now elim Hne.
  - now exists first, rest.
Qed.

(** ** Invoice creation *)

Lemma decrement_clampFirst (id : string) (amount : Z) (items : list InventoryItem) :
  decrement id amount items = clampFirst id amount items.
Proof.
  unfold decrement. induction items as [|item rest IH]; simpl; [reflexivity|].
  destruct (String.eqb (Item.id item) id); [reflexivity | now rewrite IH].
Qed.

Lemma findById_hasId (id : string) (items : list InventoryItem) :
  hasId id items = match findById items id with Some _ => true | None => false end.
Proof.
  unfold hasId, findById. induction items as [|item rest IH]; simpl; [reflexivity|].
  destruct (String.eqb (Item.id item) id); [reflexivity | exact IH].
Qed.

(** The whole store after the second step of [createInvoice]. *)
Lemma reduceAll_store (lines : list Line.t) (items : list InventoryItem)
    (invs : list Invoice) (log : list Write) :
  reduceAll lines (mkStore items invs log) =
  mkStore (afterSale lines items) invs (log ++ stockLog lines items).
Proof.
  revert items log. induction lines as [|l rest IH]; intros items log; simpl.
  - now rewrite app_nil_r.
  - unfold reduceAll in IH. unfold exec. rewrite reduceInventoryQuantity_run.
    cbn [snd inventory invoices writes].
    rewrite findById_hasId, <- decrement_clampFirst.
    destruct (findById items (Line.itemId l)) as [found|] eqn:Hfind.
    + rewrite IH, <- app_assoc. reflexivity.
    + assert (Hsame : decrement (Line.itemId l) (Line.quantity l) items = items)
        by (apply mutateFound_absent; exact Hfind).
      rewrite Hsame. apply IH.
Qed.

Lemma sumLines_from (lines : list Line.t) (a : Z) :
  fold_left (fun sum item => sum + Line.total item) lines a = a + totalOf lines.
Proof.
  revert a. induction lines as [|l rest IH]; intros a; simpl; [lia|].
  rewrite IH. lia.
Qed.

Lemma sumLines_totalOf (lines : list Line.t) : sumLines lines = totalOf lines.
Proof. unfold sumLines. now rewrite sumLines_from. Qed.

Lemma checkStock_covered (inventory : list InventoryItem) (validItems : list FormItem.t) :
  Forall (validated inventory) validItems -> checkStock inventory validItems = None.
Proof.
  induction 1 as [|fi rest (_ & _ & item & Hfind & Hle) _ IH]; simpl; [reflexivity|].
  rewrite Hfind. destruct (Z.ltb_spec (Item.quantity item) (FormItem.quantity fi)); [lia|].
  exact IH.
Qed.

Lemma mapM_cons {A B : Type} (f : A -> M B) (x : A) (rest : list A) (s : Store) :
  mapM f (x :: rest) s =
  match f x s with
  | (Ok y, s1) =>
      match mapM f rest s1 with
      | (Ok ys, s2) => (Ok (y :: ys), s2)
      | (Throw e, s2) => (Throw e, s2)
      end
  | (Throw e, s1) => (Throw e, s1)
  end.
Proof.
  simpl. unfold bind. destruct (f x s) as [[y|e] s1]; [|reflexivity].
  destruct (mapM f rest s1) as [[ys|e] s2]; reflexivity.
Qed.

Lemma toLine_run (inventory : list InventoryItem) (fi : FormItem.t) (s : Store) :
  toLine inventory fi s =
  (match findById inventory (FormItem.itemId fi) with
   | Some item =>
       Ok (Line.mk (FormItem.itemId fi) (Item.name item) (FormItem.quantity fi)
                   (Item.price item) (Item.price item * FormItem.quantity fi))
   | None => Throw TypeError
   end, s).
Proof.
  unfold toLine. destruct (findById inventory (FormItem.itemId fi)); reflexivity.
Qed.

Lemma mapM_toLine_store (inventory : list InventoryItem) (l : list FormItem.t) (s : Store) :
  snd (mapM (toLine inventory) l s) = s.
Proof.
  induction l as [|fi rest IH]; [reflexivity|].
  rewrite mapM_cons, toLine_run.
  destruct (findById inventory (FormItem.itemId fi)); [|reflexivity].
  destruct (mapM (toLine inventory) rest s) as [[ys|e] s'];
    simpl in IH; subst s'; reflexivity.
Qed.

Lemma mapM_toLine_lines (inventory : list InventoryItem) (l : list FormItem.t)
    (s : Store) (lines : list Line.t) :
  fst (mapM (toLine inventory) l s) = Ok lines ->
  Forall2 (snapshotOf inventory) l lines.
Proof.
  revert lines. induction l as [|fi rest IH]; intros lines.
  - intros [= <-]. constructor.
  - rewrite mapM_cons, toLine_run.
    destruct (findById inventory (FormItem.itemId fi)) as [item|] eqn:Hfind;
      [|discriminate].
    destruct (mapM (toLine inventory) rest s) as [[ys|e] s']; [|discriminate].
    intros [= <-]. constructor.
    + now exists item.
    + now apply IH.
Qed.

Lemma mapM_toLine_resolved (inventory : list InventoryItem) (l : list FormItem.t)
    (s : Store) :
  Forall (validated inventory) l ->
  exists lines, mapM (toLine inventory) l s = (Ok lines, s).
Proof.
  induction 1 as [|fi rest (_ & _ & item & Hfind & _) _ (lines & IH)].
  - now exists [].
  - rewrite mapM_cons, toLine_run, Hfind, IH. eexists. reflexivity.
Qed.

Lemma snapshot_totals (inventory : list InventoryItem) (l : list FormItem.t)
    (lines : list Line.t) :
  Forall2 (snapshotOf inventory) l lines -> Forall lineTotalOk lines.
Proof.
  induction 1 as [|fi line rest lines' (item & _ & ->) _ IH]; constructor.
  - reflexivity.
  - exact IH.
Qed.

(** What [handleSubmit] does once its checks have passed. *)
Lemma handleSubmit_passed (trim : string -> string) (shown : list InventoryItem)
    (customerName : string) (formItems : list FormItem.t) (uuid : string) (now : Z)
    (s : Store) (lines : list Line.t) :
  trim customerName <> EmptyString ->
  filter isValidItem formItems <> [] ->
  checkStock shown (filter isValidItem formItems) = None ->
  mapM (toLine shown) (filter isValidItem formItems) s = (Ok lines, s) ->
  handleSubmit trim shown customerName formItems uuid now s =
  (Ok created,
   reduceAll lines
     (mkStore (inventory s)
        (invoices s ++ [Invoice.mk uuid (trim customerName) lines (sumLines lines) now])
        (writes s ++
           [SetInvoices
              (invoices s ++ [Invoice.mk uuid (trim customerName) lines (sumLines lines) now])]))).
Proof.
  intros Hname Hvalid Hstock Hlines. unfold handleSubmit.
  apply String.eqb_neq in Hname. rewrite Hname.
  cbv zeta.
  assert (Hlen : (List.length (filter isValidItem formItems) =? 0)%nat = false).
  { destruct (filter isValidItem formItems); [now elim Hvalid | reflexivity]. }
  rewrite Hlen, Hstock. unfold bind at 1. rewrite Hlines.
  unfold bind at 1. rewrite createInvoice_run. reflexivity.
Qed.

Lemma filter_validated (inventory : list InventoryItem) (formItems : list FormItem.t) :
  Forall (validated inventory) formItems -> filter isValidItem formItems = formItems.
Proof.
  induction 1 as [|fi rest (Hid & Hq & _) _ IH]; simpl; [reflexivity|].
  assert (Hok : isValidItem fi = true).
  { unfold isValidItem. apply String.eqb_neq in Hid. apply Z.ltb_lt in Hq.
    now rewrite Hid, Hq. }
  now rewrite Hok, IH.
Qed.

(** C4, as the code has it: for pairs that the caller has validated
    against the copy of the inventory that the page holds, [handleSubmit]
    takes the name and the price of every pair from that copy into a line
    whose total is price times quantity, stores an invoice made of these
    lines, the sum of their totals, the new id and the creation time, and
    only after that write decrements the stored inventory, line after line,
    each decrement clamping at 0: the log gains the invoice write first and
    the inventory writes after it.  The name and the price are the current
    ones when the copy is the stored collection. *)
Theorem handleSubmit_two_steps (trim : string -> string) (shown : list InventoryItem)
    (s : Store) (customerName : string) (formItems : list FormItem.t)
    (uuid : string) (now : Z) :
  trim customerName <> EmptyString ->
  formItems <> [] ->
  Forall (validated shown) formItems ->
  exists lines,
    Forall2 (snapshotOf shown) formItems lines /\
    handleSubmit trim shown customerName formItems uuid now s =
    (Ok created,
     mkStore
       (afterSale lines (inventory s))
       (invoices s ++ [Invoice.mk uuid (trim customerName) lines (totalOf lines) now])
       (writes s ++
          SetInvoices
            (invoices s ++ [Invoice.mk uuid (trim customerName) lines (totalOf lines) now])
          :: stockLog lines (inventory s))).
Proof.
  intros Hname Hsome Hvalid.
  pose proof (filter_validated _ _ Hvalid) as Hfilter.
  destruct (mapM_toLine_resolved shown formItems s Hvalid) as (lines & Hlines).
  exists lines. split.
  - apply mapM_toLine_lines with (s := s). now rewrite Hlines.
  - rewrite (handleSubmit_passed trim shown customerName formItems uuid now s lines);
      try rewrite Hfilter; auto using checkStock_covered.
    rewrite reduceAll_store, sumLines_totalOf, <- app_assoc. reflexivity.
Qed.

Lemma handleSubmit_two_steps_witness :
  handleSubmit (fun x => x) (inventory stocked) "Acme" [FormItem.mk "w1" 3]
               "i1" 2000 stocked =
  (Ok created,
   mkStore
     [Item.mk "w1" "Widget" 7 50 1000]
     [Invoice.mk "i1" "Acme" [Line.mk "w1" "Widget" 3 50 150] 150 2000]
     [SetInventory [Item.mk "w1" "Widget" 10 50 1000];
      SetInvoices [Invoice.mk "i1" "Acme" [Line.mk "w1" "Widget" 3 50 150] 150 2000];
      SetInventory [Item.mk "w1" "Widget" 7 50 1000]]).
Proof.
  destruct (handleSubmit_two_steps (fun x => x) (inventory stocked) stocked "Acme"
              [FormItem.mk "w1" 3] "i1" 2000) as (lines & Hsnap & Hrun).
  - discriminate.
  - discriminate.
  - constructor; [|constructor].
    split; [discriminate|]. split; [reflexivity|].
    exists (Item.mk "w1" "Widget" 10 50 1000). split; [reflexivity|].
    simpl. discriminate.
  - inversion Hsnap as [|fi line rest lines' (item & Hfind & Hline) Hrest]; subst.
    inversion Hrest; subst.
    simpl in Hfind. injection Hfind as <-.
    rewrite Hrun. reflexivity.
Defined.

(** C4 as stated fails: the name and the price come from the page's copy
    of the inventory, not from the stored collection.  With a copy read
    when the widget cost 40 and a stored price of 50, the line is priced
    40. *)
Lemma stale_copy_prices_the_line :
  let s' := exec (handleSubmit (fun x => x) staleCopy "Acme" [FormItem.mk "w1" 3]
                    "i1" 2000) stocked in
  map Item.price (inventory stocked) = [50] /\
  invoices s' = [Invoice.mk "i1" "Acme" [Line.mk "w1" "Widget" 3 40 120] 120 2000] /\
  ~ Forall2 (snapshotOf (inventory stocked)) [FormItem.mk "w1" 3]
            [Line.mk "w1" "Widget" 3 40 120].
Proof.
  split; [reflexivity|]. split; [reflexivity|].
  intros Hsnap.
  inversion Hsnap as [|fi line rest lines' (item & Hfind & Hline) Hrest]; subst.
  simpl in Hfind. injection Hfind as <-. discriminate Hline.
Qed.

(** The end-to-end scenario of the specification, run on the code. *)
Example scenario_widget :
  let s1 := exec (handleSubmit (fun x => x) (inventory stocked) "Acme"
                    [FormItem.mk "w1" 3] "i1" 2000) stocked in
  let s2 := exec (deleteInvoice "i1") s1 in
  let s3 := exec (handleSubmit (fun x => x) (inventory s2) "Acme"
                    [FormItem.mk "w1" 5] "i2" 3000) s2 in
  map Invoice.total (invoices s1) = [150] /\
  map Item.quantity (inventory s1) = [7] /\
  map Item.quantity (inventory s2) = [7] /\
  fst (getLowStockItems s2) = Ok [] /\
  map Item.quantity (inventory s3) = [2] /\
  fst (getLowStockItems s3) = Ok [Item.mk "w1" "Widget" 2 50 1000].
Proof. repeat split. Qed.

Lemma updateInventoryItem_invoices (id : string) (updates : Patch.t) (s : Store) :
  invoices (exec (updateInventoryItem id updates) s) = invoices s.
Proof.
  unfold exec, updateInventoryItem, bind, getInventory.
  destruct (findIndex _ _); reflexivity.
Qed.

Lemma run_keeps_invoice (inv : Invoice) (op : Op) (s : Store) :
  op <> OpDeleteInvoice (Invoice.id inv) ->
  In inv (invoices s) -> In inv (invoices (run op s)).
Proof.
  destruct op as [uuid now item|id updates|id|id amount|uuid now invoice|id];
    simpl; intros Hop Hin.
  - exact Hin.
  - now rewrite updateInventoryItem_invoices.
  - exact Hin.
  - now rewrite reduceInventoryQuantity_invoices.
  - unfold exec. rewrite createInvoice_run. simpl.
    rewrite reduceAll_invoices. simpl. apply in_or_app. now left.
  - apply filter_In. split; [assumption|].
    apply negb_true_iff, String.eqb_neq. intros Heq. apply Hop. now rewrite Heq.
Qed.

Lemma runAll_keeps_invoice (inv : Invoice) (ops : list Op) (s : Store) :
  Forall (fun op => op <> OpDeleteInvoice (Invoice.id inv)) ops ->
  In inv (invoices s) -> In inv (invoices (runAll ops s)).
Proof.
  intros Hops. revert s.
  induction Hops as [|op rest Hop Hrest IH]; intros s Hin; simpl; [assumption|].
  apply IH. now apply run_keeps_invoice.
Qed.

(** The checks that have passed when [handleSubmit] reports a creation. *)
Lemma handleSubmit_created (trim : string -> string) (shown : list InventoryItem)
    (customerName : string) (formItems : list FormItem.t) (uuid : string) (now : Z)
    (s : Store) :
  fst (handleSubmit trim shown customerName formItems uuid now s) = Ok created ->
  exists lines,
    trim customerName <> EmptyString /\
    filter isValidItem formItems <> [] /\
    checkStock shown (filter isValidItem formItems) = None /\
    mapM (toLine shown) (filter isValidItem formItems) s = (Ok lines, s).
Proof.
  unfold handleSubmit.
  destruct (String.eqb (trim customerName) "") eqn:Hname; [discriminate|].
  cbv zeta.
  destruct (List.length (filter isValidItem formItems) =? 0)%nat eqn:Hlen; [discriminate|].
  destruct (checkStock shown (filter isValidItem formItems)) eqn:Hstock; [discriminate|].
  unfold bind at 1.
  pose proof (mapM_toLine_store shown (filter isValidItem formItems) s) as Hstore.
  destruct (mapM (toLine shown) (filter isValidItem formItems) s) as [[lines|e] s1];
    [|discriminate].
  simpl in Hstore. subst s1. intros _. exists lines.
  split; [now apply String.eqb_neq|]. split; [|split; reflexivity].
  intros Hnil. rewrite Hnil in Hlen. discriminate.
Qed.

(** C5: whenever [handleSubmit] creates an invoice, the invoice it appends
    to the collection has a total equal to the sum of its line totals, and
    every line total is the line's price times its quantity, the price
    being the one of the inventory item at that moment.  No repository
    operation recomputes it: after any operations other than the deletion
    of this invoice, price updates included, the same invoice is still in
    the collection. *)
Theorem invoice_totals_stable (trim : string -> string) (shown : list InventoryItem)
    (customerName : string) (formItems : list FormItem.t) (uuid : string) (now : Z)
    (s : Store) :
  fst (handleSubmit trim shown customerName formItems uuid now s) = Ok created ->
  exists inv,
    invoices (exec (handleSubmit trim shown customerName formItems uuid now) s)
      = invoices s ++ [inv] /\
    Invoice.id inv = uuid /\
    Forall2 (snapshotOf shown) (filter isValidItem formItems) (Invoice.items inv) /\
    Invoice.total inv = totalOf (Invoice.items inv) /\
    Forall lineTotalOk (Invoice.items inv) /\
    (forall ops,
       Forall (fun op => op <> OpDeleteInvoice uuid) ops ->
       In inv (invoices
                 (runAll ops
                    (exec (handleSubmit trim shown customerName formItems uuid now) s)))).
Proof.
  intros Hcreated.
  destruct (handleSubmit_created _ _ _ _ _ _ _ Hcreated)
    as (lines & Hname & Hvalid & Hstock & Hlines).
  unfold exec.
  rewrite (handleSubmit_passed trim shown customerName formItems uuid now s lines)
    by assumption.
  cbn [snd].
  set (inv := Invoice.mk uuid (trim customerName) lines (sumLines lines) now).
  assert (Hstored : invoices
            (reduceAll lines
               (mkStore (inventory s) (invoices s ++ [inv])
                  (writes s ++ [SetInvoices (invoices s ++ [inv])])))
          = invoices s ++ [inv]) by now rewrite reduceAll_invoices.
  assert (Hsnap : Forall2 (snapshotOf shown) (filter isValidItem formItems) lines).
  { apply mapM_toLine_lines with (s := s). now rewrite Hlines. }
  exists inv. split; [exact Hstored|]. split; [reflexivity|].
  split; [exact Hsnap|]. split; [apply sumLines_totalOf|].
  split; [exact (snapshot_totals _ _ _ Hsnap)|].
  intros ops Hops. apply runAll_keeps_invoice; [exact Hops|].
  rewrite Hstored. apply in_or_app. right. now left.
Qed.

Lemma invoice_totals_stable_witness :
  exists inv,
    invoices (exec (handleSubmit (fun x => x) (inventory stocked) "Acme"
                      [FormItem.mk "w1" 3] "i1" 2000) stocked)
      = invoices stocked ++ [inv] /\
    Invoice.id inv = "i1"%string /\
    Forall2 (snapshotOf (inventory stocked)) (filter isValidItem [FormItem.mk "w1" 3])
            (Invoice.items inv) /\
    Invoice.total inv = totalOf (Invoice.items inv) /\
    Forall lineTotalOk (Invoice.items inv) /\
    (forall ops,
       Forall (fun op => op <> OpDeleteInvoice "i1") ops ->
       In inv (invoices
                 (runAll ops
                    (exec (handleSubmit (fun x => x) (inventory stocked) "Acme"
                             [FormItem.mk "w1" 3] "i1" 2000) stocked)))).
Proof.
  apply (invoice_totals_stable (fun x => x) (inventory stocked) "Acme"
           [FormItem.mk "w1" 3] "i1" 2000 stocked).
  reflexivity.
Defined.

(** Snapshot stability on the example of the specification: the price of
    the item goes from 100 to 150 after the sale, and the invoice keeps 100. *)
Example snapshot_stable :
  let s0 := run (OpAdd "p1" 1000 (NewItem.mk "Pump" 4 100)) emptyStore in
  let s1 := exec (handleSubmit (fun x => x) (inventory s0) "Acme"
                    [FormItem.mk "p1" 2] "i1" 2000) s0 in
  let s2 := run (OpUpdate "p1" (Patch.mk None None None (Some 150) None)) s1 in
  map Item.price (inventory s2) = [150] /\
  invoices s2 = [Invoice.mk "i1" "Acme" [Line.mk "p1" "Pump" 2 100 200] 200 2000].
Proof. split; reflexivity. Qed.

(** ** Validation *)

(** C3, as the code has it: [addInventoryItem] and [createInvoice] check
    nothing and never fail.  For every input [addInventoryItem] appends the
    item with the generated id and the current time, persists the
    collection and returns the item, and the ids stay distinct when the
    generated id is a new one; [createInvoice] appends the invoice it is
    given in the same way.  The checks are those of the two forms, which
    report an error and leave the store as it was when the name is blank,
    the quantity is missing or negative, the price is missing or not
    positive, the customer name is blank, or no line is valid. *)
Theorem repository_accepts_any_input :
  (forall uuid now item s,
     let newItem := Item.mk uuid (NewItem.name item) (NewItem.quantity item)
                            (NewItem.price item) now in
     addInventoryItem uuid now item s =
     (Ok newItem,
      mkStore (inventory s ++ [newItem]) (invoices s)
              (writes s ++ [SetInventory (inventory s ++ [newItem])]))) /\
  (forall uuid now item s,
     ~ In uuid (map Item.id (inventory s)) ->
     NoDup (map Item.id (inventory s)) ->
     NoDup (map Item.id (inventory (exec (addInventoryItem uuid now item) s)))) /\
  (forall uuid now invoice s,
     fst (createInvoice uuid now invoice s) = Ok (stored uuid now invoice) /\
     invoices (exec (createInvoice uuid now invoice) s) =
       invoices s ++ [stored uuid now invoice]) /\
  (forall trim parseInt parseFloat name quantity price uuid now s,
     trim name = EmptyString \/ quantity = EmptyString \/ parseInt quantity < 0 \/
     price = EmptyString \/ parseFloat price <= 0 ->
     exists message,
       InventoryPage.handleSubmit trim parseInt parseFloat name quantity price uuid now s
       = (Ok (ToastError "Error" message), s)) /\
  (forall trim shown customerName formItems uuid now s,
     trim customerName = EmptyString \/ filter isValidItem formItems = [] ->
     exists message,
       handleSubmit trim shown customerName formItems uuid now s
       = (Ok (ToastError "Error" message), s)).
Proof.
  split; [|split; [|split; [|split]]].
  - reflexivity.
  - intros uuid now item s Hfresh Hnodup. simpl.
    rewrite map_app. simpl. apply NoDup_app; [assumption | |].
    + constructor; [intros [] | constructor].
    + intros k Hk [<-|[]]. now apply Hfresh.
  - intros uuid now invoice s. unfold exec. rewrite createInvoice_run. simpl.
    split; [reflexivity | apply reduceAll_invoices].
  - intros trim parseInt parseFloat name quantity price uuid now s Hbad.
    unfold InventoryPage.handleSubmit.
    destruct (String.eqb_spec (trim name) "") as [_|Hname]; [eexists; reflexivity|].
    destruct (String.eqb_spec quantity "") as [_|Hquantity]; [eexists; reflexivity|].
    destruct (Z.ltb_spec (parseInt quantity) 0) as [_|Hq]; [eexists; reflexivity|].
    destruct (String.eqb_spec price "") as [_|Hprice]; [eexists; reflexivity|].
    destruct (Z.leb_spec (parseFloat price) 0) as [_|Hp]; [eexists; reflexivity|].
    exfalso. destruct Hbad as [H|[H|[H|[H|H]]]]; auto; lia.
  - intros trim shown customerName formItems uuid now s Hbad.
    unfold handleSubmit.
    destruct (String.eqb_spec (trim customerName) "") as [_|Hname]; [eexists; reflexivity|].
    cbv zeta. destruct Hbad as [H|H]; [now elim Hname|].
    rewrite H. eexists. reflexivity.
Qed.

Lemma repository_accepts_any_input_witness :
  NoDup (map Item.id (inventory (exec (addInventoryItem "w2" 2000 widget) stocked))) /\
  (exists message,
     InventoryPage.handleSubmit (fun x => x) (fun _ => -1) (fun _ => 50)
       "Widget" "-1" "50" "w2" 2000 stocked
     = (Ok (ToastError "Error" message), stocked)) /\
  (exists message,
     handleSubmit (fun x => x) (inventory stocked) "Acme" [FormItem.mk "w1" 0]
       "i1" 2000 stocked
     = (Ok (ToastError "Error" message), stocked)).
Proof.
  destruct repository_accepts_any_input as (_ & Hfresh & _ & Hitem & Hinvoice).
  split; [|split].
  - apply Hfresh.
    + simpl. intros [H|[]]. discriminate.
    + simpl. constructor; [intros [] | constructor].
  - apply Hitem. right. right. left. lia.
  - apply Hinvoice. right. reflexivity.
Defined.

(** C3 as stated fails: handed an item with no name, a negative quantity
    and a price of 0, [addInventoryItem] raises nothing and stores it, and
    [createInvoice] stores an invoice without a customer name. *)
Lemma add_stores_invalid_item :
  raises (addInventoryItem "u1" 1000 badItem) emptyStore = false /\
  inventory (exec (addInventoryItem "u1" 1000 badItem) emptyStore)
    = [Item.mk "u1" "" (-1) 0 1000] /\
  inventory (exec (addInventoryItem "u1" 1000 badItem) emptyStore)
    <> inventory emptyStore /\
  raises (createInvoice "i1" 1000 badInvoice) emptyStore = false /\
  invoices (exec (createInvoice "i1" 1000 badInvoice) emptyStore)
    = [Invoice.mk "i1" "" [] 0 1000].
Proof.
  repeat split. discriminate.
Qed.

(** * Further properties of the code *)

(** ** The inventory repository *)

Lemma filter_twice {A : Type} (p : A -> bool) (l : list A) :
  filter p (filter p l) = filter p l.
Proof.
  induction l as [|x rest IH]; simpl; [reflexivity|].
  destruct (p x) eqn:Hpx; simpl; [rewrite Hpx|]; now rewrite IH.
Qed.

(** [deleteInventoryItem] never raises and leaves the invoices alone; it
    keeps exactly the items with another id, and deleting the same id once
    more changes nothing in the collection. *)
Theorem deleteInventoryItem_idempotent (id : string) (s : Store) :
  raises (deleteInventoryItem id) s = false /\
  invoices (exec (deleteInventoryItem id) s) = invoices s /\
  (forall item, In item (inventory (exec (deleteInventoryItem id) s)) <->
                In item (inventory s) /\ Item.id item <> id) /\
  inventory (exec (deleteInventoryItem id) (exec (deleteInventoryItem id) s)) =
    inventory (exec (deleteInventoryItem id) s).
Proof.
  unfold raises, exec, deleteInventoryItem, bind, getInventory, saveInventory. simpl.
  split; [reflexivity|]. split; [reflexivity|]. split.
  - intros item. rewrite filter_In, negb_true_iff, String.eqb_neq. tauto.
  - apply filter_twice.
Qed.

Section FirstMatch.
Context {A : Type}.
Variable p : A -> bool.

Lemma findIndex_first (before after : list A) (x : A) :
  (forall y, In y before -> p y = false) ->
  p x = true ->
  findIndex p (before ++ x :: after) = Some (List.length before).
Proof.
  induction before as [|b before IH]; simpl; intros Hbefore Hx.
  - now rewrite Hx.
  - rewrite (Hbefore b (or_introl eq_refl)). rewrite IH; auto.
Qed.

Lemma findIndex_absent (l : list A) :
  (forall y, In y l -> p y = false) -> findIndex p l = None.
Proof.
  induction l as [|x rest IH]; simpl; intros Hall; [reflexivity|].
  rewrite (Hall x (or_introl eq_refl)). rewrite IH; auto.
Qed.

Lemma assignAt_middle (before after : list A) (x y : A) :
  assignAt (List.length before) y (before ++ x :: after) = before ++ y :: after.
Proof.
  induction before as [|b before IH]; simpl; [reflexivity|]. now rewrite IH.
Qed.

End FirstMatch.

(** [updateInventoryItem] on an id that no item has leaves the store as it
    was, without a write.  Otherwise it replaces the first item with the id
    by the item merged with the given fields, keeps every other item and
    the order, and leaves the invoices alone. *)
Theorem updateInventoryItem_first_match (id : string) (updates : Patch.t) (s : Store) :
  ((forall i, In i (inventory s) -> Item.id i <> id) ->
   updateInventoryItem id updates s = (Ok tt, s)) /\
  (forall before item after,
     inventory s = before ++ item :: after ->
     (forall i, In i before -> Item.id i <> id) ->
     Item.id item = id ->
     updateInventoryItem id updates s =
     (Ok tt,
      mkStore (before ++ merge item updates :: after) (invoices s)
              (writes s ++ [SetInventory (before ++ merge item updates :: after)]))).
Proof.
  unfold updateInventoryItem, bind, getInventory, saveInventory. split.
  - intros Habsent. rewrite findIndex_absent; [reflexivity|].
    intros y Hy. apply String.eqb_neq. now apply Habsent.
  - intros before item after Hsplit Hbefore Hid. rewrite Hsplit.
    rewrite findIndex_first.
    + now rewrite nth_middle, assignAt_middle.
    + intros y Hy. apply String.eqb_neq. now apply Hbefore.
    + now apply String.eqb_eq.
Qed.

Lemma updateInventoryItem_first_match_witness :
  let s := mkStore [Item.mk "a" "Nail" 8 2 10; Item.mk "b" "Bolt" 3 5 20] [] [] in
  updateInventoryItem "b" (Patch.mk None None None (Some 6) None) s =
    (Ok tt,
     mkStore [Item.mk "a" "Nail" 8 2 10; Item.mk "b" "Bolt" 3 6 20] []
             [SetInventory [Item.mk "a" "Nail" 8 2 10; Item.mk "b" "Bolt" 3 6 20]]) /\
  updateInventoryItem "c" (Patch.mk None None None (Some 6) None) s = (Ok tt, s).
Proof.
  intros s. split.
  - apply (proj2 (updateInventoryItem_first_match "b"
                    (Patch.mk None None None (Some 6) None) s)
             [Item.mk "a" "Nail" 8 2 10] (Item.mk "b" "Bolt" 3 5 20) []).
    + reflexivity.
    + intros i [<-|[]]. simpl. discriminate.
    + reflexivity.
  - apply (proj1 (updateInventoryItem_first_match "c"
                    (Patch.mk None None None (Some 6) None) s)).
    intros i [<-|[<-|[]]]; simpl; discriminate.
Defined.

(** Adding an item under an id that no item has and deleting that id again
    gives back the collection as it was. *)
Theorem add_then_delete (uuid : string) (now : Z) (item : NewItem.t) (s : Store) :
  ~ In uuid (map Item.id (inventory s)) ->
  inventory (exec (deleteInventoryItem uuid) (exec (addInventoryItem uuid now item) s))
  = inventory s.
Proof.
  intros Hfresh.
  unfold exec, deleteInventoryItem, addInventoryItem, bind, getInventory, saveInventory.
  simpl. rewrite filter_app. simpl. rewrite String.eqb_refl. simpl.
  rewrite app_nil_r.
  induction (inventory s) as [|x rest IH]; simpl; [reflexivity|].
  simpl in Hfresh.
  destruct (String.eqb_spec (Item.id x) uuid) as [Heq|Hneq]; simpl.
  - elim Hfresh. now left.
  - rewrite IH; [reflexivity|]. intros Hin. apply Hfresh. now right.
Qed.

Lemma add_then_delete_witness :
  inventory (exec (deleteInventoryItem "w2")
               (exec (addInventoryItem "w2" 2000 widget) stocked))
  = inventory stocked.
Proof.
  apply (add_then_delete "w2" 2000 widget stocked).
  simpl. intros [H|[]]. discriminate.
Defined.

Lemma decrement_identity (itemId : string) (amount : Z) (items : list InventoryItem) :
  map identity (decrement itemId amount items) = map identity items.
Proof.
  unfold decrement.
  induction items as [|x rest IH]; simpl; [reflexivity|].
  destruct (String.eqb (Item.id x) itemId); simpl; [reflexivity|]. now rewrite IH.
Qed.

Lemma decrement_le (itemId : string) (amount : Z) (items : list InventoryItem) :
  0 <= amount ->
  Forall nonNegative items ->
  Forall2 (fun old new => Item.quantity new <= Item.quantity old)
          items (decrement itemId amount items).
Proof.
  intros Hamount. unfold decrement.
  induction 1 as [|x rest Hx Hrest IH]; simpl; [constructor|].
  destruct (String.eqb (Item.id x) itemId).
  - constructor.
    + unfold nonNegative in Hx. simpl. lia.
    + clear IH. induction rest as [|y rest' IH']; constructor; [lia|].
      inversion Hrest; subst. now apply IH'.
  - constructor; [lia | exact IH].
Qed.

Lemma Forall2_le_trans (l1 l2 l3 : list InventoryItem) :
  Forall2 (fun old new => Item.quantity new <= Item.quantity old) l1 l2 ->
  Forall2 (fun old new => Item.quantity new <= Item.quantity old) l2 l3 ->
  Forall2 (fun old new => Item.quantity new <= Item.quantity old) l1 l3.
Proof.
  intros H12. revert l3.
  induction H12 as [|a b l1 l2 Hab _ IH]; intros l3 H23; inversion H23; subst;
    constructor; [lia | now apply IH].
Qed.

(** [createInvoice] never changes the id, the name, the price or the
    creation time of an inventory item, nor the number or the order of the
    items; when no quantity is negative, in the stock or on the lines, no
    quantity goes up. *)
Theorem createInvoice_only_lowers_stock (uuid : string) (now : Z)
    (invoice : NewInvoice.t) (s : Store) :
  map identity (inventory (exec (createInvoice uuid now invoice) s))
    = map identity (inventory s) /\
  (stockInvariant s ->
   Forall (fun l => 0 <= Line.quantity l) (NewInvoice.items invoice) ->
   Forall2 (fun old new => Item.quantity new <= Item.quantity old)
           (inventory s) (inventory (exec (createInvoice uuid now invoice) s))).
Proof.
  unfold exec. rewrite createInvoice_run. cbn [snd].
  rewrite reduceAll_inventory. cbn [inventory].
  unfold stockInvariant. generalize (inventory s) as items.
  induction (NewInvoice.items invoice) as [|l rest IH]; intros items; simpl.
  - split; [reflexivity|]. intros _ _.
    induction items; constructor; [lia | assumption].
  - destruct (IH (decrement (Line.itemId l) (Line.quantity l) items)) as [Hid Hle].
    split.
    + now rewrite Hid, decrement_identity.
    + intros Hstock Hlines. inversion Hlines as [|l' rest' Hl Hrest]; subst.
      apply Forall2_le_trans
        with (l2 := decrement (Line.itemId l) (Line.quantity l) items).
      * now apply decrement_le.
      * apply Hle; [now apply decrement_nonNegative | assumption].
Qed.

Lemma createInvoice_only_lowers_stock_witness :
  Forall2 (fun old new => Item.quantity new <= Item.quantity old)
    (inventory stocked)
    (inventory (exec (createInvoice "i1" 2000
                        (NewInvoice.mk "Acme" [Line.mk "w1" "Widget" 30 50 1500] 1500))
                     stocked)).
Proof.
  apply (proj2 (createInvoice_only_lowers_stock "i1" 2000
                  (NewInvoice.mk "Acme" [Line.mk "w1" "Widget" 30 50 1500] 1500) stocked)).
  - constructor; [|constructor]. unfold nonNegative. simpl. lia.
  - constructor; [|constructor]. simpl. lia.
Defined.

(** ** The invoice form *)

Lemma checkStock_short (shown : list InventoryItem) (validItems : list FormItem.t)
    (fi : FormItem.t) (item : InventoryItem) :
  In fi validItems ->
  findById shown (FormItem.itemId fi) = Some item ->
  Item.quantity item < FormItem.quantity fi ->
  exists short, checkStock shown validItems = Some short.
Proof.
  intros Hin Hfind Hshort.
  induction validItems as [|x rest IH]; simpl; [destruct Hin|].
  destruct (findById shown (FormItem.itemId x)) as [found|] eqn:Hx.
  - destruct (Z.ltb_spec (Item.quantity found) (FormItem.quantity x)) as [_|Hge].
    + now exists found.
    + destruct Hin as [->|Hin]; [|now apply IH].
      rewrite Hfind in Hx. injection Hx as <-. lia.
  - destruct Hin as [->|Hin]; [congruence | now apply IH].
Qed.

(** A valid row that asks for more than the page's copy of the inventory
    holds makes [handleSubmit] stop with the insufficient-stock message:
    nothing is written, no invoice is created, no stock is taken. *)
Theorem handleSubmit_insufficient_stock (trim : string -> string)
    (shown : list InventoryItem) (customerName : string)
    (formItems : list FormItem.t) (uuid : string) (now : Z) (s : Store)
    (fi : FormItem.t) (item : InventoryItem) :
  trim customerName <> EmptyString ->
  In fi formItems ->
  isValidItem fi = true ->
  findById shown (FormItem.itemId fi) = Some item ->
  Item.quantity item < FormItem.quantity fi ->
  exists message,
    handleSubmit trim shown customerName formItems uuid now s =
    (Ok (ToastError "Insufficient Stock" message), s).
Proof.
  intros Hname Hin Hvalid Hfind Hshort. unfold handleSubmit.
  apply String.eqb_neq in Hname. rewrite Hname. cbv zeta.
  assert (Hfi : In fi (filter isValidItem formItems)) by (apply filter_In; auto).
  destruct (filter isValidItem formItems) as [|x rest] eqn:Hfilter; [destruct Hfi|].
  cbn [List.length Nat.eqb].
  destruct (checkStock_short shown (x :: rest) fi item Hfi Hfind Hshort) as (short & ->).
  eexists. reflexivity.
Qed.

Lemma handleSubmit_insufficient_stock_witness :
  exists message,
    handleSubmit (fun x => x) (inventory stocked) "Acme" [FormItem.mk "w1" 11]
                 "i1" 2000 stocked =
    (Ok (ToastError "Insufficient Stock" message), stocked).
Proof.
  apply (handleSubmit_insufficient_stock (fun x => x) (inventory stocked) "Acme"
           [FormItem.mk "w1" 11] "i1" 2000 stocked
           (FormItem.mk "w1" 11) (Item.mk "w1" "Widget" 10 50 1000)).
  - discriminate.
  - now left.
  - reflexivity.
  - reflexivity.
  - simpl. lia.
Defined.

Lemma checkStock_within (shown : list InventoryItem) (validItems : list FormItem.t) :
  (forall fi item,
     In fi validItems ->
     findById shown (FormItem.itemId fi) = Some item ->
     FormItem.quantity fi <= Item.quantity item) ->
  checkStock shown validItems = None.
Proof.
  induction validItems as [|x rest IH]; simpl; intros Hall; [reflexivity|].
  destruct (findById shown (FormItem.itemId x)) as [found|] eqn:Hx.
  - destruct (Z.ltb_spec (Item.quantity found) (FormItem.quantity x)) as [Hlt|_].
    + specialize (Hall x found (or_introl eq_refl) Hx). lia.
    + apply IH. intros fi item Hin. apply Hall. now right.
  - apply IH. intros fi item Hin. apply Hall. now right.
Qed.

Lemma mapM_toLine_unknown (shown : list InventoryItem) (l : list FormItem.t)
    (s : Store) (fi : FormItem.t) :
  In fi l ->
  findById shown (FormItem.itemId fi) = None ->
  mapM (toLine shown) l s = (Throw TypeError, s).
Proof.
  intros Hin Hnone. induction l as [|x rest IH]; [destruct Hin|].
  rewrite mapM_cons, toLine_run.
  destruct (findById shown (FormItem.itemId x)) as [found|] eqn:Hx; [|reflexivity].
  destruct Hin as [->|Hin]; [congruence|].
  now rewrite IH.
Qed.

(** A valid row whose id is not in the page's copy of the inventory passes
    the stock loop, which skips it, and then makes [handleSubmit] throw a
    [TypeError] before anything is written: no invoice, no stock change. *)
Theorem handleSubmit_unknown_item (trim : string -> string)
    (shown : list InventoryItem) (customerName : string)
    (formItems : list FormItem.t) (uuid : string) (now : Z) (s : Store)
    (fi : FormItem.t) :
  trim customerName <> EmptyString ->
  (forall row item,
     In row formItems ->
     findById shown (FormItem.itemId row) = Some item ->
     FormItem.quantity row <= Item.quantity item) ->
  In fi formItems ->
  isValidItem fi = true ->
  findById shown (FormItem.itemId fi) = None ->
  handleSubmit trim shown customerName formItems uuid now s = (Throw TypeError, s).
Proof.
  intros Hname Hstock Hin Hvalid Hnone. unfold handleSubmit.
  apply String.eqb_neq in Hname. rewrite Hname. cbv zeta.
  assert (Hfi : In fi (filter isValidItem formItems)) by (apply filter_In; auto).
  assert (Hlen : (List.length (filter isValidItem formItems) =? 0)%nat = false).
  { destruct (filter isValidItem formItems); [destruct Hfi | reflexivity]. }
  rewrite Hlen, checkStock_within.
  - unfold bind at 1.
    now rewrite (mapM_toLine_unknown shown _ s fi Hfi Hnone).
  - intros row item Hrow. apply Hstock. apply filter_In in Hrow. tauto.
Qed.

Lemma handleSubmit_unknown_item_witness :
  handleSubmit (fun x => x) (inventory stocked) "Acme"
               [FormItem.mk "w1" 3; FormItem.mk "zz" 1] "i1" 2000 stocked
  = (Throw TypeError, stocked).
Proof.
  apply (handleSubmit_unknown_item (fun x => x) (inventory stocked) "Acme"
           [FormItem.mk "w1" 3; FormItem.mk "zz" 1] "i1" 2000 stocked
           (FormItem.mk "zz" 1)).
  - discriminate.
  - intros row item [<-|[<-|[]]]; simpl.
    + intros [= <-]. simpl. lia.
    + discriminate.
  - right. now left.
  - reflexivity.
  - reflexivity.
Defined.

Lemma calculateTotal_from (shown : list InventoryItem) (formItems : list FormItem.t)
    (lines : list Line.t) (a : Z) :
  Forall2 (snapshotOf shown) formItems lines ->
  fold_left
    (fun sum formItem =>
       match findById shown (FormItem.itemId formItem) with
       | Some inventoryItem =>
           sum + Item.price inventoryItem * FormItem.quantity formItem
       | None => sum
       end)
    formItems a
  = a + totalOf lines.
Proof.
  intros Hsnap. revert a.
  induction Hsnap as [|fi line rest lines' (item & Hfind & ->) _ IH]; intros a; simpl.
  - lia.
  - rewrite Hfind, IH. simpl. lia.
Qed.

(** For rows that are all valid, known and covered by the stock, the total
    that the form displays ([calculateTotal]) is the total of the invoice
    that [handleSubmit] stores. *)
Theorem displayed_total_is_stored (trim : string -> string)
    (shown : list InventoryItem) (customerName : string)
    (formItems : list FormItem.t) (uuid : string) (now : Z) (s : Store) :
  trim customerName <> EmptyString ->
  formItems <> [] ->
  Forall (validated shown) formItems ->
  exists inv,
    invoices (exec (handleSubmit trim shown customerName formItems uuid now) s)
      = invoices s ++ [inv] /\
    Invoice.total inv = calculateTotal shown formItems.
Proof.
  intros Hname Hsome Hvalid.
  pose proof (filter_validated _ _ Hvalid) as Hfilter.
  destruct (mapM_toLine_resolved shown formItems s Hvalid) as (lines & Hlines).
  assert (Hsnap : Forall2 (snapshotOf shown) formItems lines).
  { apply mapM_toLine_lines with (s := s). now rewrite Hlines. }
  unfold exec.
  rewrite (handleSubmit_passed trim shown customerName formItems uuid now s lines);
    try rewrite Hfilter; auto using checkStock_covered.
  cbn [snd]. rewrite reduceAll_invoices. cbn [invoices].
  eexists. split; [reflexivity|]. cbn [Invoice.total].
  unfold calculateTotal. rewrite (calculateTotal_from shown formItems lines 0 Hsnap).
  now rewrite sumLines_totalOf.
Qed.

Lemma displayed_total_is_stored_witness :
  exists inv,
    invoices (exec (handleSubmit (fun x => x) (inventory stocked) "Acme"
                      [FormItem.mk "w1" 3] "i1" 2000) stocked)
      = invoices stocked ++ [inv] /\
    Invoice.total inv = calculateTotal (inventory stocked) [FormItem.mk "w1" 3].
Proof.
  apply (displayed_total_is_stored (fun x => x) (inventory stocked) "Acme"
           [FormItem.mk "w1" 3] "i1" 2000 stocked).
  - discriminate.
  - discriminate.
  - constructor; [|constructor].
    split; [discriminate|]. split; [reflexivity|].
    exists (Item.mk "w1" "Widget" 10 50 1000). split; [reflexivity|].
    simpl. discriminate.
Defined.

(** ** The forms keep the stock invariant *)

Lemma handleSubmit_store (trim : string -> string) (shown : list InventoryItem)
    (customerName : string) (formItems : list FormItem.t) (uuid : string) (now : Z)
    (s : Store) :
  exec (handleSubmit trim shown customerName formItems uuid now) s = s \/
  exists lines invs log,
    exec (handleSubmit trim shown customerName formItems uuid now) s
    = reduceAll lines (mkStore (inventory s) invs log).
Proof.
  unfold exec.
  assert (Hcases : forall r,
             handleSubmit trim shown customerName formItems uuid now s = r ->
             snd r = s \/
             exists lines invs log,
               snd r = reduceAll lines (mkStore (inventory s) invs log)).
  { intros r. unfold handleSubmit.
    destruct (String.eqb (trim customerName) ""); [intros <-; now left|].
    cbv zeta.
    destruct (List.length (filter isValidItem formItems) =? 0)%nat;
      [intros <-; now left|].
    destruct (checkStock shown (filter isValidItem formItems));
      [intros <-; now left|].
    unfold bind at 1.
    pose proof (mapM_toLine_store shown (filter isValidItem formItems) s) as Hstore.
    destruct (mapM (toLine shown) (filter isValidItem formItems) s) as [[lines|e] s1];
      simpl in Hstore; subst s1; [|intros <-; now left].
    unfold bind at 1. rewrite createInvoice_run. intros <-. right. cbn [snd].
    eexists _, _, _. reflexivity. }
  now apply Hcases.
Qed.

(** Whatever is typed into the two forms, submitting them never leaves an
    inventory quantity below 0 when none was below 0 before: the inventory
    form refuses a negative quantity, and the invoice form only decrements
    through [reduceInventoryQuantity]. *)
Theorem forms_keep_stock_invariant (trim : string -> string)
    (parseInt parseFloat : string -> Z) (s : Store) :
  stockInvariant s ->
  (forall name quantity price uuid now,
     stockInvariant
       (exec (InventoryPage.handleSubmit trim parseInt parseFloat
                name quantity price uuid now) s)) /\
  (forall shown customerName formItems uuid now,
     stockInvariant (exec (handleSubmit trim shown customerName formItems uuid now) s)).
Proof.
  intros Hs. split.
  - intros name quantity price uuid now.
    unfold exec, InventoryPage.handleSubmit.
    destruct (String.eqb (trim name) ""); [exact Hs|].
    destruct (String.eqb quantity ""); [exact Hs|]. simpl orb.
    destruct (Z.ltb_spec (parseInt quantity) 0) as [_|Hq]; [exact Hs|].
    destruct (String.eqb price "" || (parseFloat price <=? 0)); [exact Hs|].
    unfold stockInvariant. simpl.
    apply Forall_app. split; [exact Hs|].
    constructor; [exact Hq | constructor].
  - intros shown customerName formItems uuid now.
    destruct (handleSubmit_store trim shown customerName formItems uuid now s)
      as [->|(lines & invs & log & ->)]; [exact Hs|].
    apply reduceAll_nonNegative. exact Hs.
Qed.

Lemma forms_keep_stock_invariant_witness :
  stockInvariant
    (exec (handleSubmit (fun x => x) (inventory stocked) "Acme"
             [FormItem.mk "w1" 3] "i1" 2000) stocked) /\
  stockInvariant
    (exec (InventoryPage.handleSubmit (fun x => x) (fun _ => -4) (fun _ => 50)
             "Widget" "-4" "50" "w2" 2000) stocked).
Proof.
  assert (Hstocked : stockInvariant stocked).
  { constructor; [|constructor]. unfold nonNegative. simpl. lia. }
  destruct (forms_keep_stock_invariant (fun x => x) (fun _ => -4) (fun _ => 50)
              stocked Hstocked) as [Hitem Hinvoice].
  split; [apply Hinvoice | apply Hitem].
Defined.

(** ** Sales figures *)

Lemma sumTotals_app (p : Invoice -> bool) (invs : list Invoice) (inv : Invoice) :
  sumTotals (filter p (invs ++ [inv])) =
  sumTotals (filter p invs) + (if p inv then Invoice.total inv else 0).
Proof.
  assert (Happ : forall l1 l2, sumTotals (l1 ++ l2) = sumTotals l1 + sumTotals l2).
  { intros l1 l2. unfold sumTotals at 1. rewrite fold_left_app. apply sumTotals_from. }
  rewrite filter_app, Happ. simpl.
  destruct (p inv); [rewrite sumTotals_cons|]; change (sumTotals []) with 0; lia.
Qed.

Lemma createInvoice_invoices (uuid : string) (now : Z) (invoice : NewInvoice.t)
    (s : Store) :
  invoices (exec (createInvoice uuid now invoice) s) =
  invoices s ++ [stored uuid now invoice].
Proof.
  unfold exec. rewrite createInvoice_run. cbn [snd]. apply reduceAll_invoices.
Qed.

(** An invoice created at time [t] raises this week's sales, read at
    [now], by its total when [t] is not more than seven days before [now],
    and today's sales by its total when [t] falls on the date of [now]; an
    older invoice leaves this week's sales as they were. *)
Theorem createInvoice_raises_sales (toDateString : Z -> string)
    (uuid : string) (t : Z) (invoice : NewInvoice.t) (now : Z) (s : Store) :
  let s' := exec (createInvoice uuid t invoice) s in
  exists week today,
    fst (getThisWeekSales now s) = Ok week /\
    fst (getTodaySales toDateString now s) = Ok today /\
    (now - days 7 <= t ->
     fst (getThisWeekSales now s') = Ok (week + NewInvoice.total invoice)) /\
    (t < now - days 7 -> fst (getThisWeekSales now s') = Ok week) /\
    (toDateString t = toDateString now ->
     fst (getTodaySales toDateString now s') = Ok (today + NewInvoice.total invoice)).
Proof.
  intros s'. unfold getThisWeekSales, getTodaySales, bind, getInvoices, ret.
  cbn [fst]. unfold s'. rewrite createInvoice_invoices.
  eexists _, _. split; [reflexivity|]. split; [reflexivity|].
  rewrite !sumTotals_app. cbn [stored Invoice.createdAt Invoice.total].
  replace (now - 7 * 24 * 60 * 60 * 1000) with (now - days 7) by (unfold days; lia).
  split; [|split].
  - intros Hin. apply Z.leb_le in Hin. now rewrite Hin.
  - intros Hout. apply Z.leb_gt in Hout. rewrite Hout. now rewrite Z.add_0_r.
  - intros Hdate. apply String.eqb_eq in Hdate. now rewrite Hdate.
Qed.

Lemma createInvoice_raises_sales_witness :
  let s' := exec (createInvoice "i1" 2000
                    (NewInvoice.mk "Acme" [Line.mk "w1" "Widget" 3 50 150] 150))
                 stocked in
  fst (getThisWeekSales 5000 s') = Ok 150 /\
  fst (getTodaySales (fun _ => "Mon Jan 01 2024"%string) 5000 s') = Ok 150.
Proof.
  intros s'.
  destruct (createInvoice_raises_sales (fun _ => "Mon Jan 01 2024"%string) "i1" 2000
              (NewInvoice.mk "Acme" [Line.mk "w1" "Widget" 3 50 150] 150) 5000 stocked)
    as (week & today & Hweek & Htoday & Hin & _ & Hdate).
  injection Hweek as <-. injection Htoday as <-.
  split.
  - apply Hin. unfold days. lia.
  - apply Hdate. reflexivity.
Defined.

Lemma sumTotals_nonneg (invs : list Invoice) :
  Forall (fun inv => 0 <= Invoice.total inv) invs -> 0 <= sumTotals invs.
Proof.
  induction 1 as [|inv rest Hinv _ IH]; [reflexivity|].
  rewrite sumTotals_cons. lia.
Qed.

Lemma sumTotals_filter_le (p q : Invoice -> bool) (invs : list Invoice) :
  (forall inv, p inv = true -> q inv = true) ->
  Forall (fun inv => 0 <= Invoice.total inv) invs ->
  sumTotals (filter p invs) <= sumTotals (filter q invs).
Proof.
  intros Hpq. induction 1 as [|inv rest Hinv _ IH]; simpl; [reflexivity|].
  destruct (p inv) eqn:Hp.
  - rewrite (Hpq inv Hp), !sumTotals_cons. lia.
  - destruct (q inv); [rewrite sumTotals_cons|]; lia.
Qed.

(** With a calendar in which one date lies in one month of one year, and
    with no negative invoice total, today's sales never exceed this month's
    sales. *)
Theorem today_within_month (toDateString : Z -> string) (getMonth getFullYear : Z -> Z)
    (now : Z) (s : Store) :
  (forall t u, toDateString t = toDateString u ->
               getMonth t = getMonth u /\ getFullYear t = getFullYear u) ->
  Forall (fun inv => 0 <= Invoice.total inv) (invoices s) ->
  exists today month,
    getTodaySales toDateString now s = (Ok today, s) /\
    getThisMonthSales getMonth getFullYear now s = (Ok month, s) /\
    0 <= today <= month.
Proof.
  intros Hcalendar Htotals.
  unfold getTodaySales, getThisMonthSales, bind, getInvoices, ret.
  eexists _, _. split; [reflexivity|]. split; [reflexivity|]. split.
  - apply sumTotals_nonneg. apply Forall_forall. intros inv Hin.
    apply filter_In in Hin. rewrite Forall_forall in Htotals. now apply Htotals.
  - apply sumTotals_filter_le; [|exact Htotals].
    intros inv Hdate. apply String.eqb_eq in Hdate.
    destruct (Hcalendar _ _ Hdate) as [-> ->].
    now rewrite !Z.eqb_refl.
Qed.

Lemma today_within_month_witness :
  exists today month,
    getTodaySales (fun t => showZ (t / 86400000)) 5000 (mkStore [] [justCreated] [])
      = (Ok today, mkStore [] [justCreated] []) /\
    getThisMonthSales (fun _ => 0) (fun _ => 1970) 5000 (mkStore [] [justCreated] [])
      = (Ok month, mkStore [] [justCreated] []) /\
    0 <= today <= month.
Proof.
  apply (today_within_month (fun t => showZ (t / 86400000)) (fun _ => 0) (fun _ => 1970)
           5000 (mkStore [] [justCreated] [])).
  - intros t u _. split; reflexivity.
  - constructor; [|constructor]. simpl. lia.
Defined.

(** The sales figures and the best seller read the invoices only: adding,
    updating, deleting or decrementing inventory items changes none of
    them, so renaming or removing a product does not touch past sales. *)
Theorem inventory_changes_keep_figures (toDateString : Z -> string)
    (getMonth getFullYear : Z -> Z) (op : Op) (now : Z) (s : Store) :
  inventoryOnly op ->
  invoices (run op s) = invoices s /\
  fst (getTopSellingProduct (run op s)) = fst (getTopSellingProduct s) /\
  fst (getThisWeekSales now (run op s)) = fst (getThisWeekSales now s) /\
  fst (getLastWeekSales now (run op s)) = fst (getLastWeekSales now s) /\
  fst (getTodaySales toDateString now (run op s))
    = fst (getTodaySales toDateString now s) /\
  fst (getThisMonthSales getMonth getFullYear now (run op s))
    = fst (getThisMonthSales getMonth getFullYear now s).
Proof.
  intros Hop.
  assert (Hinvoices : invoices (run op s) = invoices s).
  { destruct op as [uuid t item|id updates|id|id amount|uuid t invoice|id];
      simpl; try reflexivity; try (now elim Hop).
    - apply updateInventoryItem_invoices.
    - apply reduceInventoryQuantity_invoices. }
  split; [exact Hinvoices|].
  unfold getTopSellingProduct, getThisWeekSales, getLastWeekSales, getTodaySales,
    getThisMonthSales, bind, getInvoices, ret.
  rewrite Hinvoices.
  repeat split.
  destruct (objectValues (collectSales (invoices s))); reflexivity.
Qed.

Lemma inventory_changes_keep_figures_witness :
  fst (getTopSellingProduct
         (run (OpUpdate "w1" (Patch.mk None (Some "Gizmo"%string) None None None)) tiedSales))
  = Ok (Some (Product.mk "Widget" 5)).
Proof.
  rewrite (proj1 (proj2 (inventory_changes_keep_figures (fun _ => EmptyString)
                           (fun _ => 0) (fun _ => 0)
                           (OpUpdate "w1" (Patch.mk None (Some "Gizmo"%string) None None None))
                           0 tiedSales I))).
  reflexivity.
Defined.

(** ** More on the insights *)

Lemma push_bound (c : bool) (l : list string) (x : string) (n : nat) :
  (List.length l <= n)%nat ->
  (List.length (if c then push l x else l) <= S n)%nat.
Proof.
  intros Hl. destruct c; [unfold push; rewrite length_app; simpl|]; lia.
Qed.

Lemma push_keeps (c : bool) (l : list string) (x a : string) :
  In a l -> In a (if c then push l x else l).
Proof.
  intros Hin. destruct c; [apply in_or_app; now left | exact Hin].
Qed.

Lemma fallback_keeps (l : list string) (a : string) :
  In a l -> In a (if (List.length l =? 0)%nat then push l welcome else l).
Proof.
  intros Hin. destruct l; [destruct Hin | exact Hin].
Qed.

Lemma fallback_bound (l : list string) :
  (List.length l <= 4)%nat ->
  (1 <= List.length (if (List.length l =? 0)%nat then push l welcome else l) <= 4)%nat.
Proof.
  intros Hl. destruct l as [|x rest]; simpl in *; lia.
Qed.

(** [generateInsights] returns between one and four insights: at most one
    about the sales trend, one about low stock, one about the best seller
    and one about today's sales, or else the welcome message alone. *)
Theorem generateInsights_one_to_four
    (toDateString toLocaleString : Z -> string) (percentIncrease : Z -> Z -> string)
    (nowThisWeek nowLastWeek nowToday : Z) (s : Store) :
  exists insights,
    generateInsights toDateString toLocaleString percentIncrease nowThisWeek nowLastWeek nowToday s
    = (Ok insights, s) /\
    (1 <= List.length insights <= 4)%nat.
Proof.
  unfold generateInsights.
  unfold bind at 1. unfold getThisWeekSales at 1, bind at 1, getInvoices at 1, ret at 1.
  unfold bind at 1. unfold getLastWeekSales at 1, bind at 1, getInvoices at 1, ret at 1.
  unfold bind at 1. unfold getLowStockItems at 1, bind at 1, getInventory at 1, ret at 1.
  unfold bind at 1.
  destruct (getTopSellingProduct_run s) as (top & ->).
  unfold bind at 1. unfold getTodaySales at 1, bind at 1, getInvoices at 1, ret at 1.
  unfold ret. eexists. split; [reflexivity|].
  apply fallback_bound.
  apply push_bound.
  assert (Hsales : forall (c1 c2 c3 : bool) (m1 m2 m3 : string),
             (List.length
                (if c1 then push [] m1
                 else if c2 then push [] m2
                      else if c3 then push [] m3 else []) <= 1)%nat).
  { intros [] [] [] m1 m2 m3; simpl; lia. }
  destruct top as [top|].
  - apply push_bound. apply push_bound. apply Hsales.
  - apply Nat.le_trans with 2%nat; [|lia]. apply push_bound. apply Hsales.
Qed.

(** Whenever an inventory item has fewer than five units, the list that
    [generateInsights] returns holds the low-stock alert built from the
    items below five. *)
Theorem low_stock_is_reported
    (toDateString toLocaleString : Z -> string) (percentIncrease : Z -> Z -> string)
    (nowThisWeek nowLastWeek nowToday : Z) (s : Store) (item : InventoryItem) :
  In item (inventory s) ->
  Item.quantity item < 5 ->
  exists insights,
    generateInsights toDateString toLocaleString percentIncrease nowThisWeek nowLastWeek nowToday s
    = (Ok insights, s) /\
    In (lowStockAlert (filter (fun i => Item.quantity i <? 5) (inventory s))) insights.
Proof.
  intros Hin Hlow.
  assert (Hsome : (0 <? List.length (filter (fun i => (Item.quantity i <? 5)%Z)
                                            (inventory s)))%nat = true).
  { assert (Hitem : In item (filter (fun i => Item.quantity i <? 5) (inventory s))).
    { apply filter_In. split; [assumption | now apply Z.ltb_lt]. }
    destruct (filter (fun i => Item.quantity i <? 5) (inventory s)); [destruct Hitem|].
    reflexivity. }
  unfold generateInsights.
  unfold bind at 1. unfold getThisWeekSales at 1, bind at 1, getInvoices at 1, ret at 1.
  unfold bind at 1. unfold getLastWeekSales at 1, bind at 1, getInvoices at 1, ret at 1.
  unfold bind at 1. unfold getLowStockItems at 1, bind at 1, getInventory at 1, ret at 1.
  unfold bind at 1.
  destruct (getTopSellingProduct_run s) as (top & ->).
  unfold bind at 1. unfold getTodaySales at 1, bind at 1, getInvoices at 1, ret at 1.
  unfold ret. eexists. split; [reflexivity|].
  apply fallback_keeps. apply push_keeps.
  assert (Halert : forall (l : list string) (a : string), In a (push l a)).
  { intros l a. apply in_or_app. right. now left. }
  destruct top as [top|]; [apply push_keeps|];
    match goal with
    | |- In _ (if ?c then _ else _) =>
        assert (Hc : c = true) by exact Hsome; rewrite Hc
    end;
    apply Halert.
Qed.

Lemma low_stock_is_reported_witness :
  exists insights,
    generateInsights (fun _ => EmptyString) showZ (fun _ _ => EmptyString) 5000 5000 5000
      (mkStore [Item.mk "b" "Bolt" 3 5 20] [] [])
    = (Ok insights, mkStore [Item.mk "b" "Bolt" 3 5 20] [] []) /\
    In (lowStockAlert
          (filter (fun i => Item.quantity i <? 5)
                  (inventory (mkStore [Item.mk "b" "Bolt" 3 5 20] [] []))))
       insights.
Proof.
  apply (low_stock_is_reported (fun _ => EmptyString) showZ (fun _ _ => EmptyString) 5000 5000 5000
           (mkStore [Item.mk "b" "Bolt" 3 5 20] [] []) (Item.mk "b" "Bolt" 3 5 20)).
  - now left.
  - simpl. lia.
Defined.

(** ** The rows of the invoice form *)

Lemma filterIndex_passed {A : Type} (l : list A) (start index : nat) :
  (index < start)%nat ->
  filterIndex (fun i => negb (i =? index)%nat) start l = l.
Proof.
  revert start. induction l as [|x rest IH]; intros start Hlt; simpl; [reflexivity|].
  destruct (Nat.eqb_spec start index) as [Heq|_]; [lia|]. simpl.
  rewrite IH by lia. reflexivity.
Qed.

Lemma filterIndex_remove {A : Type} (l : list A) (start k : nat) :
  (k < List.length l)%nat ->
  filterIndex (fun i => negb (i =? start + k)%nat) start l
  = firstn k l ++ skipn (S k) l.
Proof.
  revert start k. induction l as [|x rest IH]; intros start k Hlt; simpl in Hlt; [lia|].
  destruct k as [|k]; simpl filterIndex.
  - rewrite Nat.add_0_r, Nat.eqb_refl. simpl.
    apply filterIndex_passed. lia.
  - destruct (Nat.eqb_spec start (start + S k)) as [Heq|_]; [lia|]. simpl.
    replace (start + S k)%nat with (S start + k)%nat by lia.
    rewrite IH by lia. reflexivity.
Qed.

Lemma filterIndex_beyond {A : Type} (l : list A) (start index : nat) :
  (start + List.length l <= index)%nat ->
  filterIndex (fun i => negb (i =? index)%nat) start l = l.
Proof.
  revert start. induction l as [|x rest IH]; intros start Hle; simpl in *; [reflexivity|].
  destruct (Nat.eqb_spec start index) as [Heq|_]; [lia|]. simpl.
  rewrite IH by lia. reflexivity.
Qed.

(** [removeFormItem] leaves a form of one row as it is; on a longer form it
    takes out exactly the row at the index and keeps the others in order,
    and an index past the last row takes out nothing. *)
Theorem removeFormItem_row (index : nat) (formItems : list FormItem.t) :
  ((List.length formItems <= 1)%nat -> removeFormItem index formItems = formItems) /\
  ((1 < List.length formItems)%nat ->
   (index < List.length formItems)%nat ->
   removeFormItem index formItems = firstn index formItems ++ skipn (S index) formItems) /\
  ((List.length formItems <= index)%nat -> removeFormItem index formItems = formItems).
Proof.
  unfold removeFormItem. split; [|split].
  - intros Hle. destruct (Nat.ltb_spec 1 (List.length formItems)); [lia | reflexivity].
  - intros Hmany Hin. destruct (Nat.ltb_spec 1 (List.length formItems)); [|lia].
    apply (filterIndex_remove formItems 0 index Hin).
  - intros Hpast. destruct (Nat.ltb_spec 1 (List.length formItems)); [|reflexivity].
    apply filterIndex_beyond. simpl. exact Hpast.
Qed.

Lemma removeFormItem_row_witness :
  removeFormItem 1 [FormItem.mk "a" 1; FormItem.mk "b" 2; FormItem.mk "c" 3]
    = [FormItem.mk "a" 1; FormItem.mk "c" 3] /\
  removeFormItem 0 [FormItem.mk "a" 1] = [FormItem.mk "a" 1].
Proof.
  split.
  - apply (proj1 (proj2 (removeFormItem_row 1
                           [FormItem.mk "a" 1; FormItem.mk "b" 2; FormItem.mk "c" 3])));
      simpl; lia.
  - apply (proj1 (removeFormItem_row 0 [FormItem.mk "a" 1])). simpl. lia.
Defined.

Lemma formStep_nonempty (formItems : list FormItem.t) (op : FormOp) :
  formItems <> [] -> formStep formItems op <> [].
Proof.
  intros Hsome. destruct op as [|index]; simpl.
  - unfold addFormItem. destruct formItems; discriminate.
  - unfold removeFormItem.
    destruct (Nat.ltb_spec 1 (List.length formItems)) as [Hmany|_]; [|exact Hsome].
    destruct formItems as [|x [|y rest]]; simpl in Hmany; try lia.
    simpl. destruct index as [|[|index]]; simpl; discriminate.
Qed.

(** The invoice form never runs out of rows: from the single blank row it
    starts with, any sequence of [addFormItem] and [removeFormItem] leaves
    at least one row. *)
Theorem form_never_empty (ops : list FormOp) :
  fold_left formStep ops [blankRow] <> [].
Proof.
  assert (Hall : forall formItems, formItems <> [] ->
                                   fold_left formStep ops formItems <> []).
  { induction ops as [|op rest IH]; intros formItems Hsome; simpl; [exact Hsome|].
    apply IH. now apply formStep_nonempty. }
  apply Hall. discriminate.
Qed.

(** ** The order of the lists on the pages *)

Section Sorting.
Context {A : Type}.
Variable key : A -> Z.

Lemma insertDesc_perm (x : A) (l : list A) : Permutation (x :: l) (insertDesc key x l).
Proof.
  induction l as [|y rest IH]; simpl; [apply Permutation_refl|].
  destruct (key y <=? key x); [apply Permutation_refl|].
  apply perm_trans with (y :: x :: rest); [apply perm_swap | now apply perm_skip].
Qed.

Lemma sortDesc_perm (l : list A) : Permutation l (sortDesc key l).
Proof.
  induction l as [|x rest IH]; simpl; [apply perm_nil|].
  apply perm_trans with (x :: sortDesc key rest);
    [now apply perm_skip | apply insertDesc_perm].
Qed.

Lemma insertDesc_sorted (x : A) (l : list A) :
  StronglySorted (newerFirst key) l ->
  StronglySorted (newerFirst key) (insertDesc key x l).
Proof.
  induction 1 as [|y rest Hrest IH Hy]; simpl.
  - constructor; constructor.
  - destruct (Z.leb_spec (key y) (key x)) as [Hle|Hgt].
    + constructor; [now constructor|].
      constructor; [exact Hle|].
      rewrite Forall_forall in *. intros z Hz. specialize (Hy z Hz).
      unfold newerFirst in *. lia.
    + constructor; [exact IH|].
      apply Forall_forall. intros z Hz.
      apply (Permutation_in _ (Permutation_sym (insertDesc_perm x rest))) in Hz.
      destruct Hz as [<-|Hz].
      * unfold newerFirst. lia.
      * rewrite Forall_forall in Hy. now apply Hy.
Qed.

Lemma sortDesc_sorted (l : list A) : StronglySorted (newerFirst key) (sortDesc key l).
Proof.
  induction l as [|x rest IH]; simpl; [constructor | now apply insertDesc_sorted].
Qed.

Lemma sortDesc_ordered (l : list A) :
  StronglySorted (newerFirst key) l -> sortDesc key l = l.
Proof.
  induction 1 as [|x rest Hrest IH Hx]; simpl; [reflexivity|].
  rewrite IH. destruct rest as [|y rest']; simpl; [reflexivity|].
  inversion Hx as [|y' rest'' Hy _]; subst. unfold newerFirst in Hy.
  apply Z.leb_le in Hy. now rewrite Hy.
Qed.

End Sorting.

(** [loadData] and [loadItems] read without raising or writing; the lists
    they put on the pages hold exactly the stored invoices, or items,
    ordered from the newest to the oldest, and a collection that is already
    in that order is shown as it is stored. *)
Theorem pages_show_newest_first (s : Store) :
  exists shownInvoices shownItems,
    loadData s = (Ok (inventory s, shownInvoices), s) /\
    loadItems s = (Ok shownItems, s) /\
    Permutation (invoices s) shownInvoices /\
    StronglySorted (newerFirst Invoice.createdAt) shownInvoices /\
    Permutation (inventory s) shownItems /\
    StronglySorted (newerFirst Item.createdAt) shownItems /\
    (StronglySorted (newerFirst Invoice.createdAt) (invoices s) ->
     shownInvoices = invoices s).
Proof.
  exists (sortDesc Invoice.createdAt (invoices s)), (sortDesc Item.createdAt (inventory s)).
  split; [reflexivity|]. split; [reflexivity|].
  split; [apply sortDesc_perm|]. split; [apply sortDesc_sorted|].
  split; [apply sortDesc_perm|]. split; [apply sortDesc_sorted|].
  apply sortDesc_ordered.
Qed.

Lemma pages_show_newest_first_witness :
  fst (loadData (mkStore [] [justCreated] [])) = Ok ([], [justCreated]).
Proof.
  destruct (pages_show_newest_first (mkStore [] [justCreated] []))
    as (shownInvoices & shownItems & Hload & _ & _ & _ & _ & _ & Hsame).
  rewrite Hload. cbn [fst inventory]. rewrite Hsame; [reflexivity|].
  constructor; constructor.
Defined.

(** ** Successive decrements *)

(** Decrementing an item by [a] and then by [b], with [b] not negative,
    leaves the same inventory as one decrement by [a + b]: clamping at 0
    composes. *)
Theorem decrements_add_up (itemId : string) (a b : Z) (s : Store) :
  0 <= b ->
  inventory (exec (reduceInventoryQuantity itemId b)
               (exec (reduceInventoryQuantity itemId a) s))
  = inventory (exec (reduceInventoryQuantity itemId (a + b)) s).
Proof.
  intros Hb. rewrite !reduceInventoryQuantity_inventory. unfold decrement.
  induction (inventory s) as [|x rest IH]; simpl; [reflexivity|].
  destruct (String.eqb (Item.id x) itemId) eqn:Hx; simpl; rewrite Hx.
  - unfold setQuantity. simpl. f_equal. f_equal. lia.
  - now rewrite IH.
Qed.

Lemma decrements_add_up_witness :
  map Item.quantity
      (inventory (exec (reduceInventoryQuantity "w1" 4)
                    (exec (reduceInventoryQuantity "w1" 8) stocked)))
  = map Item.quantity (inventory (exec (reduceInventoryQuantity "w1" 12) stocked)).
Proof.
  rewrite (decrements_add_up "w1" 8 4 stocked); [reflexivity | lia].
Defined.
